(** * mclib: the client Connection (src/mc/Connection.cpp)

    A shallow embedding of [Minecraft::Connection]: the frame assembler
    ([CreatePacket(DataBuffer&)] and the polling [CreatePacket()]), the
    outbound codec pipeline ([SendPacket]), the packet handlers, the
    Yggdrasil authentication sequence and [Connect].

    The classes the connection is composed of (socket, resolver, identity
    service, ciphers, compressor, packet factory) live in other translation
    units; they enter the model as the fields of the class [Collaborators].
    Every call that crosses the boundary of the connection (transport,
    resolver, identity service, dispatcher, listeners) is appended to a log
    carried by the connection, so that "what was sent", "what was emitted"
    and "what was called" are statements about that log. *)

From Stdlib Require Import ZArith String Ascii Strings.Byte Bool Lia List.
Import ListNotations.

Local Open Scope Z_scope.

(** ** Bytes and fixed-width integers *)

Definition bytes := list byte.

Definition byte_val (b : byte) : Z := Z.of_N (Byte.to_N b).

(** [(u32)x]: conversion to a 32-bit unsigned integer. *)
Definition u32 (x : Z) : Z := x mod 2 ^ 32.

(** Conversion to a 32-bit signed [int]. *)
Definition s32 (x : Z) : Z := (x + 2 ^ 31) mod 2 ^ 32 - 2 ^ 31.

(** ** DataBuffer *)

Module DataBuffer.

(** Modelled from the spec: the class DataBuffer (DataBuffer.h is not part
    of the sources).  "An ordered, mutable byte sequence with a read
    cursor"; bytes strictly before the cursor are consumed. *)
Record t := mk { m_Buffer : bytes; m_ReadOffset : nat }.

Definition empty : t := mk [] 0.

Definition GetReadOffset (b : t) : nat := m_ReadOffset b.
Definition SetReadOffset (b : t) (pos : nat) : t := mk (m_Buffer b) pos.
Definition GetSize (b : t) : nat := length (m_Buffer b).
Definition GetRemaining (b : t) : nat := GetSize b - m_ReadOffset b.
Definition IsFinished (b : t) : bool := (GetSize b <=? m_ReadOffset b)%nat.

(** The bytes not yet consumed. *)
Definition unread (b : t) : bytes := skipn (m_ReadOffset b) (m_Buffer b).

(** [b << data]: append at the end, the cursor stays. *)
Definition append (b : t) (data : bytes) : t :=
  mk (m_Buffer b ++ data) (m_ReadOffset b).

(** Modelled from the spec: the constructor [DataBuffer(other, offset)],
    "compact the buffer to only the unconsumed remainder, with cursor
    reset to zero". *)
Definition from_offset (other : t) (offset : nat) : t :=
  mk (skipn offset (m_Buffer other)) 0.

(** Reading [n] bytes at the cursor and advancing past them. *)
Definition ReadSome (b : t) (n : nat) : t * bytes :=
  (mk (m_Buffer b) (m_ReadOffset b + n), firstn n (unread b)).

End DataBuffer.

(** ** VarInt *)

Module VarInt.

(** Modelled from the spec: the VarInt extraction operator (VarInt.cpp is
    not part of the sources).  "7 data bits per byte, high bit set =
    continuation, least-significant group first; decoding fails with an
    incomplete condition if no terminating byte is found within available
    bytes".  The result is the value and the number of bytes it took. *)
Fixpoint decode (bs : bytes) (shift : Z) (value : Z) : option (Z * nat) :=
  match bs with
  | [] => None
  | b :: rest =>
      let value := Z.lor value (Z.shiftl (Z.land (byte_val b) 127) shift) in
      if Z.testbit (byte_val b) 7
      then match decode rest (shift + 7) value with
           | Some (v, n) => Some (v, S n)
           | None => None
           end
      else Some (value, 1%nat)
  end.

(** Modelled from the spec: [buffer >> length] for a VarInt.  [None] is the
    [std::out_of_range] exception; the spec has it "not advance any read
    position when that happens", and so does the comment in
    [CreatePacket(DataBuffer&)]. *)
Definition read (buffer : DataBuffer.t) : option (DataBuffer.t * Z) :=
  match decode (DataBuffer.unread buffer) 0 0 with
  | Some (v, n) =>
      Some (DataBuffer.SetReadOffset buffer
              (DataBuffer.m_ReadOffset buffer + n), v)
  | None => None
  end.

(** [length.GetInt()]: the value as an [int]. *)
Definition GetInt (v : Z) : Z := s32 v.

(** No byte among [bs] ends a VarInt: all of them carry the continuation
    bit. *)
Definition unterminated (bs : bytes) : Prop :=
  Forall (fun b => Z.testbit (byte_val b) 7 = true) bs.

End VarInt.


(** ** Protocol states, socket status, packets *)

Module Protocol.

(** [Protocol::State].  The spec leaves Status out of its scope. *)
Inductive State := Handshake | Status | Login | Play.

Definition State_eqb (a b : State) : bool :=
  match a, b with
  | Handshake, Handshake | Status, Status | Login, Login | Play, Play => true
  | _, _ => false
  end.

End Protocol.

Module Socket.

(** [Network::Socket::Status]: "{Connected, Disconnected, ...}"; [Error]
    stands for whatever else the transport may report. *)
Inductive Status := Connected | Disconnected | Error.

Definition Status_eqb (a b : Status) : bool :=
  match a, b with
  | Connected, Connected | Disconnected, Disconnected | Error, Error => true
  | _, _ => false
  end.

End Socket.

Module Inbound.

(** The packets the connection registers a handler for, by their accessors;
    [Other] is any packet of a (state, id) pair it is not registered for.
    Floating-point fields are carried as their bit images. *)
Inductive Packet :=
| KeepAlivePacket (aliveId : Z)
| PlayerPositionAndLookPacket (x y z yaw pitch : Z)
| DisconnectPacket
| EncryptionRequestPacket (serverId publicKey verifyToken : string)
| LoginSuccessPacket
| SetCompressionPacket (maxPacketSize : Z)
| Other (state : Protocol.State) (id : Z).

End Inbound.

Module Outbound.

Inductive Action := PerformRespawn | RequestStats | TakingInventoryAchievement.

Inductive Packet :=
| KeepAlivePacket (aliveId : Z)
| PlayerPositionAndLookPacket (x y z yaw pitch : Z) (onGround : bool)
| ClientStatusPacket (action : Action)
| EncryptionResponsePacket (sharedSecret verifyToken : string)
| HandshakePacket (protocol : Z) (server : string) (port : Z)
    (next : Protocol.State)
| LoginStartPacket (username : string).

End Outbound.

(** What a call into the identity service comes back with: a [bool], or a
    [YggdrasilException] with its [what()]. *)
Inductive YggResult := YggReturn (ok : bool) | YggThrow (what : string).

(** The call failed: it returned [false] or threw. *)
Definition ygg_failed (r : YggResult) : bool :=
  match r with
  | YggReturn true => false
  | _ => true
  end.

(** What [PacketFactory::CreatePacket] comes back with: a packet, [nullptr],
    or an [UnfinishedProtocolException]. *)
Inductive FactoryResult :=
| Created (packet : Inbound.Packet)
| Null
| UnfinishedProtocol.

(** The events of [ConnectionListener]. *)
Inductive ListenerEvent :=
| OnSocketStateChange (status : Socket.Status)
| OnLogin (success : bool)
| OnAuthentication (success : bool) (error : string).

(** ** The collaborators of the connection *)

Class Collaborators := {
  (** Network/TCPSocket.h, Network/Network.h *)
  TCPSocket : Type;
  IPAddress : Type;
  IPAddress_of_string : string -> IPAddress;
  Dns_Resolve : string -> list IPAddress;
  Socket_Connect : TCPSocket -> IPAddress -> Z -> TCPSocket * bool;
  Socket_Disconnect : TCPSocket -> TCPSocket;
  Socket_GetStatus : TCPSocket -> Socket.Status;
  Socket_Receive : TCPSocket -> Z -> TCPSocket * bytes;
  Socket_Send : TCPSocket -> bytes -> TCPSocket;
  (** Yggdrasil.h *)
  Yggdrasil : Type;
  Ygg_Authenticate : Yggdrasil -> string -> string -> Yggdrasil * YggResult;
  Ygg_JoinServer :
    Yggdrasil -> string -> string -> string -> Yggdrasil * YggResult;
  GetUTF16 : string -> string;
  (** Encryption.h: the state of an [EncryptionStrategyAES] *)
  AES : Type;
  AES_new : string -> string -> AES;
  AES_GenerateResponsePacket : AES -> AES * Outbound.Packet;
  AES_GetSharedSecret : AES -> string;
  AES_Encrypt : AES -> bytes -> AES * bytes;
  AES_Decrypt : AES -> bytes -> AES * bytes;
  (** Compression.h: the transforms of a [CompressionZ] of a given
      threshold *)
  Z_Compress : Z -> bytes -> bytes;
  Z_Decompress : Z -> bytes -> bytes;
  (** Packets/Packet.h, Packets/PacketFactory.h *)
  Serialize : Outbound.Packet -> bytes;
  PacketFactory_CreatePacket :
    Protocol.State -> DataBuffer.t -> Z -> FactoryResult
}.

Section Connection.

Context {world : Collaborators}.

(** The calls that leave the connection, in the order they are made. *)
Inductive Call :=
| SocketConnect (addr : IPAddress) (port : Z) (ok : bool)
| SocketDisconnect
| SocketReceive (amount : Z) (received : bytes)
| SocketSend (data : bytes)
| DnsResolve (host : string)
| YggAuthenticate (username password : string)
| YggJoinServer (serverId sharedSecret pubkey : string)
| Dispatch (packet : Inbound.Packet)
| Notify (event : ListenerEvent).

(** *** Codec strategies *)

Inductive EncryptionStrategy :=
| EncryptionStrategyNone
| EncryptionStrategyAES (cipher : AES).

Inductive CompressionStrategy :=
| CompressionNone
| CompressionZ (threshold : Z).

(** Modelled from the spec: [EncryptionStrategyNone] is the identity
    ("identity if Disabled"); the active strategy is the collaborator's
    cipher, whose state advances with the bytes it processes. *)
Definition Encrypt (e : EncryptionStrategy) (data : bytes)
  : EncryptionStrategy * bytes :=
  match e with
  | EncryptionStrategyNone => (e, data)
  | EncryptionStrategyAES a =>
      let '(a', out) := AES_Encrypt a data in (EncryptionStrategyAES a', out)
  end.

Definition Decrypt (e : EncryptionStrategy) (data : bytes)
  : EncryptionStrategy * bytes :=
  match e with
  | EncryptionStrategyNone => (e, data)
  | EncryptionStrategyAES a =>
      let '(a', out) := AES_Decrypt a data in (EncryptionStrategyAES a', out)
  end.

(** Modelled from the spec: [CompressionNone] is the identity. *)
Definition Compress (c : CompressionStrategy) (data : bytes) : bytes :=
  match c with
  | CompressionNone => data
  | CompressionZ threshold => Z_Compress threshold data
  end.

Definition inflate (c : CompressionStrategy) (payload : bytes) : bytes :=
  match c with
  | CompressionNone => payload
  | CompressionZ threshold => Z_Decompress threshold payload
  end.

(** Modelled from the spec: [Decompress(buffer, packetLength)], "extract
    exactly length wire bytes as the frame payload, pass them to the
    decompression transform [...] and advance the cursor past the consumed
    wire bytes".  The result is a buffer of its own.  (A negative
    [packetLength] gets here only past the length check of
    [CreatePacket(DataBuffer&)], that is with 2^31 unread bytes or more;
    the model reads nothing then.) *)
Definition Decompress (c : CompressionStrategy) (buffer : DataBuffer.t)
    (packetLength : Z) : DataBuffer.t * DataBuffer.t :=
  let '(buffer', payload) :=
    DataBuffer.ReadSome buffer (Z.to_nat packetLength) in
  (buffer', DataBuffer.mk (inflate c payload) 0).

(** *** The connection *)

Record Connection := mkConnection {
  m_Encrypter : EncryptionStrategy;
  m_Compressor : CompressionStrategy;
  m_Socket : TCPSocket;
  m_Yggdrasil : Yggdrasil;
  m_ProtocolState : Protocol.State;
  m_HandleBuffer : DataBuffer.t;
  m_Server : string;
  m_Port : Z;
  m_Username : string;
  m_Password : string;
  calls : list Call
}.

Definition set_Encrypter (e : EncryptionStrategy) (c : Connection) :=
  mkConnection e (m_Compressor c) (m_Socket c) (m_Yggdrasil c)
    (m_ProtocolState c) (m_HandleBuffer c) (m_Server c) (m_Port c)
    (m_Username c) (m_Password c) (calls c).

Definition set_Compressor (z : CompressionStrategy) (c : Connection) :=
  mkConnection (m_Encrypter c) z (m_Socket c) (m_Yggdrasil c)
    (m_ProtocolState c) (m_HandleBuffer c) (m_Server c) (m_Port c)
    (m_Username c) (m_Password c) (calls c).

Definition set_Socket (s : TCPSocket) (c : Connection) :=
  mkConnection (m_Encrypter c) (m_Compressor c) s (m_Yggdrasil c)
    (m_ProtocolState c) (m_HandleBuffer c) (m_Server c) (m_Port c)
    (m_Username c) (m_Password c) (calls c).

Definition set_Yggdrasil (y : Yggdrasil) (c : Connection) :=
  mkConnection (m_Encrypter c) (m_Compressor c) (m_Socket c) y
    (m_ProtocolState c) (m_HandleBuffer c) (m_Server c) (m_Port c)
    (m_Username c) (m_Password c) (calls c).

Definition set_ProtocolState (s : Protocol.State) (c : Connection) :=
  mkConnection (m_Encrypter c) (m_Compressor c) (m_Socket c) (m_Yggdrasil c)
    s (m_HandleBuffer c) (m_Server c) (m_Port c)
    (m_Username c) (m_Password c) (calls c).

Definition set_HandleBuffer (b : DataBuffer.t) (c : Connection) :=
  mkConnection (m_Encrypter c) (m_Compressor c) (m_Socket c) (m_Yggdrasil c)
    (m_ProtocolState c) b (m_Server c) (m_Port c)
    (m_Username c) (m_Password c) (calls c).

Definition set_Server (server : string) (port : Z) (c : Connection) :=
  mkConnection (m_Encrypter c) (m_Compressor c) (m_Socket c) (m_Yggdrasil c)
    (m_ProtocolState c) (m_HandleBuffer c) server port
    (m_Username c) (m_Password c) (calls c).

Definition set_Credentials (username password : string) (c : Connection) :=
  mkConnection (m_Encrypter c) (m_Compressor c) (m_Socket c) (m_Yggdrasil c)
    (m_ProtocolState c) (m_HandleBuffer c) (m_Server c) (m_Port c)
    username password (calls c).

Definition log_call (call : Call) (c : Connection) :=
  mkConnection (m_Encrypter c) (m_Compressor c) (m_Socket c) (m_Yggdrasil c)
    (m_ProtocolState c) (m_HandleBuffer c) (m_Server c) (m_Port c)
    (m_Username c) (m_Password c) (calls c ++ [call]).

(** [NotifyListeners(&ConnectionListener::OnX, args...)]: one broadcast to
    the registered listeners. *)
Definition NotifyListeners (event : ListenerEvent) (c : Connection) :=
  log_call (Notify event) c.

(** *** SendPacket *)

Definition SendPacket (packet : Outbound.Packet) (c : Connection)
  : Connection :=
  let packetBuffer := Serialize packet in
  let compressed := Compress (m_Compressor c) packetBuffer in
  let '(encrypter, encrypted) := Encrypt (m_Encrypter c) compressed in
  let c := set_Encrypter encrypter c in
  log_call (SocketSend encrypted)
    (set_Socket (Socket_Send (m_Socket c) encrypted) c).

(** *** The packet handlers *)

Definition HandlePacket_KeepAlive (aliveId : Z) (c : Connection) : Connection :=
  SendPacket (Outbound.KeepAlivePacket aliveId) c.

Definition HandlePacket_PlayerPositionAndLook (x y z yaw pitch : Z)
    (c : Connection) : Connection :=
  let c := SendPacket
             (Outbound.PlayerPositionAndLookPacket x y z yaw pitch true) c in
  SendPacket (Outbound.ClientStatusPacket Outbound.PerformRespawn) c.

Definition HandlePacket_Disconnect (c : Connection) : Connection :=
  let c := log_call SocketDisconnect
             (set_Socket (Socket_Disconnect (m_Socket c)) c) in
  let c := NotifyListeners
             (OnSocketStateChange (Socket_GetStatus (m_Socket c))) c in
  if negb (Protocol.State_eqb (m_ProtocolState c) Protocol.Play)
  then NotifyListeners (OnLogin false) c
  else c.

(** The [success]/[error] pair of [AuthenticateClient] after one of its two
    [try] blocks, [failure] being the message of the [false] branch. *)
Definition after_try (r : YggResult) (failure : string)
    (state : bool * string) : bool * string :=
  match r with
  | YggReturn true => state
  | YggReturn false => (false, failure)
  | YggThrow what => (false, what)
  end.

Definition AuthenticateClient (serverId sharedSecret pubkey : string)
    (c : Connection) : Connection :=
  let state := (true, EmptyString) in
  let '(ygg, r) :=
    Ygg_Authenticate (m_Yggdrasil c) (m_Username c) (m_Password c) in
  let c := log_call (YggAuthenticate (m_Username c) (m_Password c))
             (set_Yggdrasil ygg c) in
  let state := after_try r "Failed to authenticate" state in
  let '(ygg, r) :=
    Ygg_JoinServer (m_Yggdrasil c) serverId sharedSecret pubkey in
  let c := log_call (YggJoinServer serverId sharedSecret pubkey)
             (set_Yggdrasil ygg c) in
  let state := after_try r "Failed to join server through Yggdrasil." state in
  NotifyListeners (OnAuthentication (fst state) (snd state)) c.

Definition HandlePacket_EncryptionRequest
    (serverId publicKey verifyToken : string) (c : Connection) : Connection :=
  let pubkey := publicKey in
  let verify := verifyToken in
  let '(aesEncrypter, encResp) :=
    AES_GenerateResponsePacket (AES_new pubkey verify) in
  let c := AuthenticateClient (GetUTF16 serverId)
             (AES_GetSharedSecret aesEncrypter) pubkey c in
  let c := SendPacket encResp c in
  set_Encrypter (EncryptionStrategyAES aesEncrypter) c.

Definition HandlePacket_LoginSuccess (c : Connection) : Connection :=
  NotifyListeners (OnLogin true) (set_ProtocolState Protocol.Play c).

Definition HandlePacket_SetCompression (maxPacketSize : Z) (c : Connection)
  : Connection :=
  set_Compressor (CompressionZ maxPacketSize) c.

(** [GetDispatcher()->Dispatch(packet)], as far as the connection is
    concerned: the dispatcher hands the packet to the handler registered
    for it in the constructor. *)
Definition dispatch (packet : Inbound.Packet) (c : Connection) : Connection :=
  let c := log_call (Dispatch packet) c in
  match packet with
  | Inbound.KeepAlivePacket aliveId => HandlePacket_KeepAlive aliveId c
  | Inbound.PlayerPositionAndLookPacket x y z yaw pitch =>
      HandlePacket_PlayerPositionAndLook x y z yaw pitch c
  | Inbound.DisconnectPacket => HandlePacket_Disconnect c
  | Inbound.EncryptionRequestPacket serverId publicKey verifyToken =>
      HandlePacket_EncryptionRequest serverId publicKey verifyToken c
  | Inbound.LoginSuccessPacket => HandlePacket_LoginSuccess c
  | Inbound.SetCompressionPacket maxPacketSize =>
      HandlePacket_SetCompression maxPacketSize c
  | Inbound.Other _ _ => c
  end.

(** *** Connect *)

Definition isdigit (ch : ascii) : bool :=
  ((48 <=? nat_of_ascii ch) && (nat_of_ascii ch <=? 57))%nat.

(** The spec's "literal numeric address", to compare with the test that
    [Connect] makes: a dotted-decimal address, that is digits and dots,
    starting with a digit. *)
Definition numeric_address (host : string) : bool :=
  match host with
  | EmptyString => false
  | String ch rest =>
      isdigit ch
      && forallb (fun a => isdigit a || Ascii.eqb a ".")
           (list_ascii_of_string rest)
  end.

(** The connection attempts on [addrs] in order, up to the first that
    succeeds: [attempts] is that sequence of calls and [result] tells
    whether one succeeded. *)
Definition tried (addrs : list IPAddress) (port : Z) (result : bool)
    (attempts : list Call) : Prop :=
  if result
  then exists failed addr rest,
         addrs = failed ++ addr :: rest
         /\ attempts
            = map (fun a => SocketConnect a port false) failed
              ++ [SocketConnect addr port true]
  else attempts = map (fun a => SocketConnect a port false) addrs.

(** The [for (auto addr : addrs)] loop of [Connect]. *)
Fixpoint connect_each (addrs : list IPAddress) (port : Z) (c : Connection)
  : Connection * bool :=
  match addrs with
  | [] => (c, false)
  | addr :: rest =>
      let '(sock, ok) := Socket_Connect (m_Socket c) addr port in
      let c := log_call (SocketConnect addr port ok) (set_Socket sock c) in
      if ok then (c, true) else connect_each rest port c
  end.

(** The tail of [Connect]: notify on success, return the result. *)
Definition connect_result (result : bool) (c : Connection)
  : Connection * option bool :=
  (if result
   then NotifyListeners (OnSocketStateChange (Socket_GetStatus (m_Socket c))) c
   else c,
   Some result).

(** [Connect(server, port)].  The result [None] is the [std::out_of_range]
    that [m_Server.at(0)] throws on an empty string. *)
Definition Connect (server : string) (port : Z) (c : Connection)
  : Connection * option bool :=
  let c := set_Server server port c in
  match m_Server c with
  | EmptyString => (c, None)
  | String ch _ =>
      if isdigit ch then
        let addr := IPAddress_of_string (m_Server c) in
        let '(sock, ok) := Socket_Connect (m_Socket c) addr (m_Port c) in
        let c := log_call (SocketConnect addr (m_Port c) ok)
                   (set_Socket sock c) in
        connect_result ok c
      else
        let addrs := Dns_Resolve (m_Server c) in
        let c := log_call (DnsResolve (m_Server c)) c in
        match addrs with
        | [] => (c, Some false)
        | _ :: _ =>
            let '(c, result) := connect_each addrs (m_Port c) c in
            connect_result result c
        end
  end.

(** *** Login *)

Definition Login (username password : string) (c : Connection) : Connection :=
  let c := SendPacket
             (Outbound.HandshakePacket 47 (m_Server c) (m_Port c)
                Protocol.Login) c in
  let c := SendPacket (Outbound.LoginStartPacket username) c in
  set_ProtocolState Protocol.Login (set_Credentials username password c).

(** *** The frame assembler *)

(** [CreatePacket(DataBuffer& buffer)]: the buffer as the call leaves it,
    and what comes back. *)
Definition CreatePacket_from (buffer : DataBuffer.t) (c : Connection)
  : DataBuffer.t * FactoryResult :=
  let readOffset := DataBuffer.GetReadOffset buffer in
  match VarInt.read buffer with
  | None => (buffer, Null)
  | Some (buffer, length) =>
      if Z.of_nat (DataBuffer.GetRemaining buffer)
         <? u32 (VarInt.GetInt length)
      then (DataBuffer.SetReadOffset buffer readOffset, Null)
      else
        let '(buffer, decompressed) :=
          Decompress (m_Compressor c) buffer (VarInt.GetInt length) in
        (buffer,
         PacketFactory_CreatePacket (m_ProtocolState c) decompressed
           (VarInt.GetInt length))
  end.

(** The loop condition
    [!m_HandleBuffer.IsFinished() && m_HandleBuffer.GetSize() > 0]. *)
Definition more_to_read (c : Connection) : bool :=
  negb (DataBuffer.IsFinished (m_HandleBuffer c))
  && (0 <? DataBuffer.GetSize (m_HandleBuffer c))%nat.

(** The [do ... while] loop of [CreatePacket()], with a bound on the number
    of its iterations; [None] when the bound is reached. *)
Fixpoint assemble (fuel : nat) (c : Connection) : option Connection :=
  match fuel with
  | O => None
  | S fuel =>
      let '(buffer, r) := CreatePacket_from (m_HandleBuffer c) c in
      let c := set_HandleBuffer buffer c in
      match r with
      | Created packet =>
          let c := dispatch packet c in
          if more_to_read c then assemble fuel c else Some c
      | Null => Some c
      | UnfinishedProtocol =>
          if more_to_read c then assemble fuel c else Some c
      end
  end.

(** What [CreatePacket()] does with the buffer after the loop. *)
Definition compact (c : Connection) : Connection :=
  if DataBuffer.IsFinished (m_HandleBuffer c)
  then set_HandleBuffer DataBuffer.empty c
  else if negb (DataBuffer.GetReadOffset (m_HandleBuffer c) =? 0)%nat
  then set_HandleBuffer
         (DataBuffer.from_offset (m_HandleBuffer c)
            (DataBuffer.GetReadOffset (m_HandleBuffer c))) c
  else c.

(** The connection as the loop of [CreatePacket()] finds it: the received
    bytes decrypted and appended to the pending buffer. *)
Definition receive_into (buffer : bytes) (c : Connection) : Connection :=
  let '(encrypter, plain) := Decrypt (m_Encrypter c) buffer in
  set_HandleBuffer (DataBuffer.append (m_HandleBuffer c) plain)
    (set_Encrypter encrypter c).

(** [CreatePacket()], the poll.  Each turn of the loop that goes on has
    consumed at least one unread byte, so one more turn than there are
    unread bytes is enough (lemma [assemble_returns]). *)
Definition CreatePacket (c : Connection) : option Connection :=
  let '(sock, buffer) := Socket_Receive (m_Socket c) 4096 in
  let c := log_call (SocketReceive 4096 buffer) (set_Socket sock c) in
  if negb (Socket.Status_eqb (Socket_GetStatus (m_Socket c)) Socket.Connected)
  then Some (NotifyListeners
               (OnSocketStateChange (Socket_GetStatus (m_Socket c))) c)
  else if (length buffer =? 0)%nat then Some c
  else
    let c := receive_into buffer c in
    match assemble (S (DataBuffer.GetRemaining (m_HandleBuffer c))) c with
    | Some c => Some (compact c)
    | None => None
    end.

(** *** Observations on a connection *)

(** [CreatePacket(DataBuffer&)] in terms of the unread bytes alone: what it
    returns, and the unread bytes it leaves. *)
Definition frame_outcome (unread : bytes) (c : Connection)
  : FactoryResult * bytes :=
  match VarInt.decode unread 0 0 with
  | None => (Null, unread)
  | Some (v, n) =>
      if Z.of_nat (length unread - n) <? u32 (VarInt.GetInt v)
      then (Null, unread)
      else
        (PacketFactory_CreatePacket (m_ProtocolState c)
           (DataBuffer.mk
              (inflate (m_Compressor c)
                 (firstn (Z.to_nat (VarInt.GetInt v)) (skipn n unread))) 0)
           (VarInt.GetInt v),
         skipn (Z.to_nat (VarInt.GetInt v)) (skipn n unread))
  end.


(** The encrypter is an active cipher. *)
Definition encrypting (c : Connection) : bool :=
  match m_Encrypter c with
  | EncryptionStrategyNone => false
  | EncryptionStrategyAES _ => true
  end.

(** The compressor is an active one. *)
Definition compressing (c : Connection) : bool :=
  match m_Compressor c with
  | CompressionNone => false
  | CompressionZ _ => true
  end.




(** The calls the packet handlers make: everything but connecting,
    resolving and receiving. *)
Definition made_by_handlers (call : Call) : bool :=
  match call with
  | SocketConnect _ _ _ | SocketReceive _ _ | DnsResolve _ => false
  | _ => true
  end.

End Connection.

(** ** A small world to run the connection in

    A transport that delivers the chunks queued for it, a resolver that
    knows one host, an identity service that accepts one password, a
    byte-flipping cipher and a one-byte-header compressor.  The examples of
    the properties below are run in it. *)

Module Demo.

Record socket := mkSocket {
  status : Socket.Status;
  inbox : list bytes;
  outbox : list bytes
}.

Definition reachable (addr : string) : bool :=
  String.eqb addr "10.0.0.2" || String.eqb addr "192.168.1.10".

Definition connect (s : socket) (addr : string) (port : Z) : socket * bool :=
  if reachable addr
  then (mkSocket Socket.Connected (inbox s) (outbox s), true)
  else (s, false).

Definition receive (s : socket) (amount : Z) : socket * bytes :=
  match inbox s with
  | [] => (s, [])
  | chunk :: rest => (mkSocket (status s) rest (outbox s), chunk)
  end.

Definition send (s : socket) (data : bytes) : socket :=
  mkSocket (status s) (inbox s) (outbox s ++ [data]).

Definition disconnect (s : socket) : socket :=
  mkSocket Socket.Disconnected (inbox s) (outbox s).

Definition resolve (host : string) : list string :=
  if String.eqb host "mc.example.org"
  then ["10.0.0.1"; "10.0.0.2"; "10.0.0.3"]%string
  else [].

(** The identity service holds the access token of the session, if any. *)
Definition authenticate (y : option string) (username password : string)
  : option string * YggResult :=
  if String.eqb password "secret123" then (Some "token"%string, YggReturn true)
  else if String.eqb password "" then (None, YggThrow "Invalid credentials.")
  else (None, YggReturn false).

Definition joinServer (y : option string) (serverId secret pubkey : string)
  : option string * YggResult :=
  match y with
  | Some _ => (y, YggReturn true)
  | None =>
      if String.eqb serverId "" then (y, YggThrow "Invalid server.")
      else (y, YggReturn false)
  end.

Definition byte_of_Z (z : Z) : byte :=
  match Byte.of_N (Z.to_N (z mod 256)) with
  | Some b => b
  | None => x00
  end.

Definition flip (b : byte) : byte := byte_of_Z (255 - byte_val b).

Definition serialize (packet : Outbound.Packet) : bytes :=
  match packet with
  | Outbound.KeepAlivePacket aliveId => [x00; byte_of_Z aliveId]
  | Outbound.PlayerPositionAndLookPacket _ _ _ _ _ _ => [x06]
  | Outbound.ClientStatusPacket _ => [x16]
  | Outbound.EncryptionResponsePacket _ _ => [x01]
  | Outbound.HandshakePacket _ _ _ _ => [x00; x2f]
  | Outbound.LoginStartPacket _ => [x00]
  end.

Definition factory (state : Protocol.State) (data : DataBuffer.t) (length : Z)
  : FactoryResult :=
  match state, DataBuffer.unread data with
  | Protocol.Play, x00 :: aliveId :: _ =>
      Created (Inbound.KeepAlivePacket (byte_val aliveId))
  | Protocol.Play, x40 :: _ => Created Inbound.DisconnectPacket
  | Protocol.Play, x01 :: _ => Created (Inbound.Other Protocol.Play 1)
  | Protocol.Login, x00 :: _ => Created Inbound.DisconnectPacket
  | Protocol.Login, x01 :: _ =>
      Created (Inbound.EncryptionRequestPacket "srv" "pubkey" "verify")
  | Protocol.Login, x02 :: _ => Created Inbound.LoginSuccessPacket
  | Protocol.Login, x03 :: t :: _ =>
      Created (Inbound.SetCompressionPacket (byte_val t))
  | _, _ => UnfinishedProtocol
  end.

#[local] Instance world : Collaborators := {|
  TCPSocket := socket;
  IPAddress := string;
  IPAddress_of_string := fun s => s;
  Dns_Resolve := resolve;
  Socket_Connect := connect;
  Socket_Disconnect := disconnect;
  Socket_GetStatus := status;
  Socket_Receive := receive;
  Socket_Send := send;
  Yggdrasil := option string;
  Ygg_Authenticate := authenticate;
  Ygg_JoinServer := joinServer;
  GetUTF16 := fun s => s;
  AES := string;
  AES_new := fun pubkey verify => "0123456789abcdef"%string;
  AES_GenerateResponsePacket := fun a =>
    (a, Outbound.EncryptionResponsePacket a "verify");
  AES_GetSharedSecret := fun a => a;
  AES_Encrypt := fun a data => (a, map flip data);
  AES_Decrypt := fun a data => (a, map flip data);
  Z_Compress := fun threshold data => x00 :: data;
  Z_Decompress := fun threshold data => tl data;
  Serialize := serialize;
  PacketFactory_CreatePacket := factory
|}.

(** A connection about to poll: connected, in the given protocol state,
    with the given pending buffer and chunks waiting in the transport. *)
Definition polling (state : Protocol.State) (pending : DataBuffer.t)
    (chunks : list bytes) : Connection :=
  mkConnection EncryptionStrategyNone CompressionNone
    (mkSocket Socket.Connected chunks []) None state pending
    "mc.example.org" 25565 "Steve" "secret123" [].

(** A connection as the constructor leaves it. *)
Definition fresh : Connection :=
  mkConnection EncryptionStrategyNone CompressionNone
    (mkSocket Socket.Disconnected [] []) None Protocol.Handshake
    DataBuffer.empty "" 0 "" "" [].

(** A logged-in user whose password the identity service rejects. *)
Definition rejected : Connection :=
  mkConnection EncryptionStrategyNone CompressionNone
    (mkSocket Socket.Connected [] []) None Protocol.Login DataBuffer.empty
    "mc.example.org" 25565 "Steve" "hunter2" [].

(** The calls of two polls in a row, and the pending buffer they leave. *)
Definition poll_twice (c : Connection) : option (list Call * DataBuffer.t) :=
  match CreatePacket c with
  | Some c1 =>
      match CreatePacket c1 with
      | Some c2 => Some (calls c2, m_HandleBuffer c2)
      | None => None
      end
  | None => None
  end.

(** The same world with a packet factory that returns [nullptr] on an
    empty payload and on the packet id 0x7f. *)
Definition factory_null (state : Protocol.State) (data : DataBuffer.t)
    (length : Z) : FactoryResult :=
  match DataBuffer.unread data with
  | [] => Null
  | x7f :: _ => Null
  | _ => factory state data length
  end.

Definition world_null : Collaborators := {|
  TCPSocket := socket;
  IPAddress := string;
  IPAddress_of_string := fun s => s;
  Dns_Resolve := resolve;
  Socket_Connect := connect;
  Socket_Disconnect := disconnect;
  Socket_GetStatus := status;
  Socket_Receive := receive;
  Socket_Send := send;
  Yggdrasil := option string;
  Ygg_Authenticate := authenticate;
  Ygg_JoinServer := joinServer;
  GetUTF16 := fun s => s;
  AES := string;
  AES_new := fun pubkey verify => "0123456789abcdef"%string;
  AES_GenerateResponsePacket := fun a =>
    (a, Outbound.EncryptionResponsePacket a "verify");
  AES_GetSharedSecret := fun a => a;
  AES_Encrypt := fun a data => (a, map flip data);
  AES_Decrypt := fun a data => (a, map flip data);
  Z_Compress := fun threshold data => x00 :: data;
  Z_Decompress := fun threshold data => tl data;
  Serialize := serialize;
  PacketFactory_CreatePacket := factory_null
|}.

Definition polling_null (state : Protocol.State) (pending : DataBuffer.t)
    (chunks : list bytes) : @Connection world_null :=
  @mkConnection world_null EncryptionStrategyNone CompressionNone
    (mkSocket Socket.Connected chunks []) None state pending
    "mc.example.org" 25565 "Steve" "secret123" [].

(** A connection that encrypts and compresses, about to poll. *)
Definition secured (state : Protocol.State) (chunks : list bytes)
  : Connection :=
  mkConnection (EncryptionStrategyAES "0123456789abcdef"%string)
    (CompressionZ 64) (mkSocket Socket.Connected chunks []) None state
    DataBuffer.empty "mc.example.org" 25565 "Steve" "secret123" [].

(** A connection whose socket has chunks to deliver but no longer reports
    Connected. *)
Definition closing (chunks : list bytes) : Connection :=
  mkConnection EncryptionStrategyNone CompressionNone
    (mkSocket Socket.Disconnected chunks []) None Protocol.Play
    DataBuffer.empty "mc.example.org" 25565 "Steve" "secret123" [].

(** What an operation that cannot fail here returns. *)
Definition returned (r : option Connection) (otherwise : Connection)
  : Connection :=
  match r with
  | Some c => c
  | None => otherwise
  end.

End Demo.

(** * Properties *)

(** ** VarInt and DataBuffer *)

Lemma decode_incomplete (bs : bytes) :
  forall shift value,
    VarInt.decode bs shift value = None <-> VarInt.unterminated bs.
Proof.
  unfold VarInt.unterminated.
  induction bs as [|b rest IH]; intros shift value; cbn [VarInt.decode].
  - split; [constructor | reflexivity].
  - destruct (Z.testbit (byte_val b) 7) eqn:Hbit.
    + specialize (IH (shift + 7)
        (Z.lor value (Z.shiftl (Z.land (byte_val b) 127) shift))).
      destruct (VarInt.decode rest _ _) as [[v n]|].
      * split; [intros H; discriminate H|].
        intros H. apply Forall_inv_tail in H.
        apply IH in H. discriminate H.
      * split; [|reflexivity].
        intros _. constructor; [assumption | apply IH; reflexivity].
    + split; [intros H; discriminate H|].
      intros H. apply Forall_inv in H. congruence.
Qed.

Lemma decode_consumed (bs : bytes) :
  forall shift value v n,
    VarInt.decode bs shift value = Some (v, n) ->
    (1 <= n <= length bs)%nat.
Proof.
  induction bs as [|b rest IH]; intros shift value v n;
    cbn [VarInt.decode length].
  - discriminate.
  - destruct (Z.testbit (byte_val b) 7).
    + destruct (VarInt.decode rest _ _) as [[v' n']|] eqn:Hd; [|discriminate].
      intros H. inversion H; subst. apply IH in Hd. lia.
    + intros H. inversion H; subst. lia.
Qed.


Lemma unread_length (b : DataBuffer.t) :
  length (DataBuffer.unread b) = DataBuffer.GetRemaining b.
Proof.
  unfold DataBuffer.unread, DataBuffer.GetRemaining, DataBuffer.GetSize.
  apply length_skipn.
Qed.

Lemma SetReadOffset_same (b : DataBuffer.t) :
  DataBuffer.SetReadOffset b (DataBuffer.m_ReadOffset b) = b.
Proof. destruct b; reflexivity. Qed.

Section ConnectionFacts.

Context {world : Collaborators}.

(** ** What the operations leave alone *)

Lemma set_HandleBuffer_same (c : Connection) :
  set_HandleBuffer (m_HandleBuffer c) c = c.
Proof. destruct c; reflexivity. Qed.

Lemma SendPacket_calls (packet : Outbound.Packet) (c : Connection) :
  calls (SendPacket packet c)
  = calls c ++
    [SocketSend
       (snd (Encrypt (m_Encrypter c)
               (Compress (m_Compressor c) (Serialize packet))))].
Proof.
  unfold SendPacket.
  destruct (Encrypt _ _) as [e out]; reflexivity.
Qed.

Lemma SendPacket_frame (packet : Outbound.Packet) (c : Connection) :
  m_HandleBuffer (SendPacket packet c) = m_HandleBuffer c
  /\ m_Compressor (SendPacket packet c) = m_Compressor c
  /\ m_ProtocolState (SendPacket packet c) = m_ProtocolState c
  /\ m_Yggdrasil (SendPacket packet c) = m_Yggdrasil c.
Proof.
  unfold SendPacket.
  destruct (Encrypt _ _) as [e out]; repeat split.
Qed.

Lemma AuthenticateClient_HandleBuffer (sid secret key : string)
    (c : Connection) :
  m_HandleBuffer (AuthenticateClient sid secret key c) = m_HandleBuffer c.
Proof.
  unfold AuthenticateClient.
  destruct (Ygg_Authenticate _ _ _) as [y1 r1]; cbn.
  destruct (Ygg_JoinServer _ _ _ _) as [y2 r2]; reflexivity.
Qed.

Lemma dispatch_HandleBuffer (packet : Inbound.Packet) (c : Connection) :
  m_HandleBuffer (dispatch packet c) = m_HandleBuffer c.
Proof.
  destruct packet; cbn [dispatch].
  - unfold HandlePacket_KeepAlive.
    rewrite (proj1 (SendPacket_frame _ _)). reflexivity.
  - unfold HandlePacket_PlayerPositionAndLook.
    rewrite !(proj1 (SendPacket_frame _ _)). reflexivity.
  - unfold HandlePacket_Disconnect; cbn.
    destruct (Protocol.State_eqb _ _); reflexivity.
  - unfold HandlePacket_EncryptionRequest.
    destruct (AES_GenerateResponsePacket _) as [aes resp]; cbn.
    rewrite (proj1 (SendPacket_frame _ _)), AuthenticateClient_HandleBuffer.
    reflexivity.
  - reflexivity.
  - reflexivity.
  - reflexivity.
Qed.

(** ** The frame assembler *)

(** [CreatePacket(DataBuffer&)] never touches the bytes and never moves the
    cursor backwards; when it returns anything but [nullptr] it has consumed
    at least the length field. *)
Lemma CreatePacket_from_cursor (buffer : DataBuffer.t) (c : Connection) :
  let r := CreatePacket_from buffer c in
  DataBuffer.m_Buffer (fst r) = DataBuffer.m_Buffer buffer
  /\ (DataBuffer.m_ReadOffset buffer <= DataBuffer.m_ReadOffset (fst r))%nat
  /\ (snd r <> Null ->
      (DataBuffer.m_ReadOffset buffer < DataBuffer.m_ReadOffset (fst r))%nat
      /\ (0 < DataBuffer.GetRemaining buffer)%nat).
Proof.
  unfold CreatePacket_from, VarInt.read, DataBuffer.GetReadOffset.
  destruct (VarInt.decode _ 0 0) as [[v n]|] eqn:Hd; cbn.
  - apply decode_consumed in Hd. rewrite unread_length in Hd.
    destruct (_ <? _); cbn.
    + split; [reflexivity|]. split; [lia|]. intros H. now elim H.
    + split; [reflexivity|]. split; [lia|]. intros _. lia.
  - split; [reflexivity|]. split; [lia|]. intros H. now elim H.
Qed.

(** The loop of [CreatePacket()] ends: one more turn than there are unread
    bytes is always enough. *)
Lemma assemble_returns (fuel : nat) :
  forall c : Connection,
    (DataBuffer.GetRemaining (m_HandleBuffer c) < fuel)%nat ->
    exists c', assemble fuel c = Some c'
      /\ DataBuffer.m_Buffer (m_HandleBuffer c')
         = DataBuffer.m_Buffer (m_HandleBuffer c)
      /\ (DataBuffer.m_ReadOffset (m_HandleBuffer c)
          <= DataBuffer.m_ReadOffset (m_HandleBuffer c'))%nat.
Proof.
  induction fuel as [|fuel IH]; intros c Hfuel; [lia|].
  cbn [assemble].
  pose proof (CreatePacket_from_cursor (m_HandleBuffer c) c) as Hc.
  destruct (CreatePacket_from (m_HandleBuffer c) c) as [buffer r].
  cbn in Hc. destruct Hc as (Hbytes & Hle & Hlt).
  assert (Hstep : forall c1 : Connection,
             m_HandleBuffer c1 = buffer -> r <> Null ->
             exists c', (if more_to_read c1 then assemble fuel c1 else Some c1)
                        = Some c'
               /\ DataBuffer.m_Buffer (m_HandleBuffer c')
                  = DataBuffer.m_Buffer (m_HandleBuffer c)
               /\ (DataBuffer.m_ReadOffset (m_HandleBuffer c)
                   <= DataBuffer.m_ReadOffset (m_HandleBuffer c'))%nat).
  { intros c1 Hb Hr. destruct (Hlt Hr) as [Hadv Hrem].
    destruct (more_to_read c1).
    - destruct (IH c1) as (c' & Hrun & Hb' & Ho').
      + rewrite Hb. unfold DataBuffer.GetRemaining, DataBuffer.GetSize in *.
        rewrite Hbytes. lia.
      + exists c'. rewrite Hb in Hb', Ho'. repeat split; try assumption.
        * congruence.
        * lia.
    - exists c1. rewrite Hb. repeat split; [assumption | lia]. }
  destruct r as [packet| |].
  - apply Hstep; [|discriminate].
    rewrite dispatch_HandleBuffer. reflexivity.
  - eexists; split; [reflexivity|]. cbn. split; [assumption | lia].
  - apply Hstep; [reflexivity | discriminate].
Qed.



(** [CreatePacket()] always returns: the bound on the loop is never
    reached. *)
Lemma CreatePacket_returns (c : Connection) :
  exists c', CreatePacket c = Some c'.
Proof.
  unfold CreatePacket.
  destruct (Socket_Receive (m_Socket c) 4096) as [sock buffer].
  destruct (negb _); [eexists; reflexivity|].
  destruct (length buffer =? 0)%nat; [eexists; reflexivity|].
  destruct (assemble_returns
              (S (DataBuffer.GetRemaining
                    (m_HandleBuffer
                       (receive_into buffer
                          (log_call (SocketReceive 4096 buffer)
                             (set_Socket sock c))))))
              (receive_into buffer
                 (log_call (SocketReceive 4096 buffer) (set_Socket sock c))))
    as (c' & Hrun & _); [lia|].
  rewrite Hrun. eexists; reflexivity.
Qed.

End ConnectionFacts.

(** ** Handlers, authentication and the outbound pipeline *)

Section Handlers.

Context {world : Collaborators}.

(** C3.  Handling a Disconnect packet disconnects the socket and notifies
    the listeners of the socket status; it notifies them of a failed login
    as well exactly when the protocol state is not Play.  Nothing else is
    called. *)
Theorem HandlePacket_Disconnect_events (c : Connection) :
  let c' := HandlePacket_Disconnect c in
  m_Socket c' = Socket_Disconnect (m_Socket c)
  /\ calls c'
     = calls c
       ++ [SocketDisconnect;
           Notify (OnSocketStateChange
                     (Socket_GetStatus (Socket_Disconnect (m_Socket c))))]
       ++ match m_ProtocolState c with
          | Protocol.Play => []
          | _ => [Notify (OnLogin false)]
          end.
Proof.
  unfold HandlePacket_Disconnect, NotifyListeners; cbn.
  destruct (m_ProtocolState c); cbn; rewrite <- ?app_assoc; split; reflexivity.
Qed.

(** C7.  [SendPacket] hands the socket one buffer: the serialization of the
    packet, compressed by the current compressor, the result encrypted by
    the current encrypter; the disabled strategies are the identity. *)
Theorem SendPacket_pipeline (packet : Outbound.Packet) (c : Connection) :
  let wire := snd (Encrypt (m_Encrypter c)
                     (Compress (m_Compressor c) (Serialize packet))) in
  calls (SendPacket packet c) = calls c ++ [SocketSend wire]
  /\ m_Socket (SendPacket packet c) = Socket_Send (m_Socket c) wire
  /\ (forall data, Compress CompressionNone data = data)
  /\ (forall data, snd (Encrypt EncryptionStrategyNone data) = data).
Proof.
  cbn zeta. split; [apply SendPacket_calls|].
  split; [|split; reflexivity].
  unfold SendPacket. destruct (Encrypt _ _) as [e out]; reflexivity.
Qed.

(** The calls of [AuthenticateClient], whatever the identity service
    answers: validation, then join-server, then one notification. *)
Lemma AuthenticateClient_calls (sid secret key : string) (c : Connection) :
  let r1 := snd (Ygg_Authenticate (m_Yggdrasil c) (m_Username c)
                   (m_Password c)) in
  let y1 := fst (Ygg_Authenticate (m_Yggdrasil c) (m_Username c)
                   (m_Password c)) in
  let r2 := snd (Ygg_JoinServer y1 sid secret key) in
  let verdict :=
    after_try r2 "Failed to join server through Yggdrasil."
      (after_try r1 "Failed to authenticate" (true, EmptyString)) in
  calls (AuthenticateClient sid secret key c)
  = calls c
    ++ [YggAuthenticate (m_Username c) (m_Password c);
        YggJoinServer sid secret key;
        Notify (OnAuthentication (fst verdict) (snd verdict))].
Proof.
  unfold AuthenticateClient, NotifyListeners.
  destruct (Ygg_Authenticate _ _ _) as [y1 r1]; cbn.
  destruct (Ygg_JoinServer _ _ _ _) as [y2 r2]; cbn.
  rewrite <- !app_assoc. reflexivity.
Qed.

Lemma AuthenticateClient_frame (sid secret key : string) (c : Connection) :
  m_Encrypter (AuthenticateClient sid secret key c) = m_Encrypter c
  /\ m_Compressor (AuthenticateClient sid secret key c) = m_Compressor c
  /\ m_Socket (AuthenticateClient sid secret key c) = m_Socket c.
Proof.
  unfold AuthenticateClient.
  destruct (Ygg_Authenticate _ _ _) as [y1 r1]; cbn.
  destruct (Ygg_JoinServer _ _ _ _) as [y2 r2]; repeat split.
Qed.

(** C2.  Handling an EncryptionRequest always sends the encryption response
    (through the codecs in place when the request arrived), after the
    authentication has notified its verdict, whatever that verdict is; and
    the encrypter it leaves is the AES strategy created for this request. *)
Theorem HandlePacket_EncryptionRequest_responds
    (serverId publicKey verifyToken : string) (c : Connection) :
  let created := AES_GenerateResponsePacket (AES_new publicKey verifyToken) in
  let c' := HandlePacket_EncryptionRequest serverId publicKey verifyToken c in
  m_Encrypter c' = EncryptionStrategyAES (fst created)
  /\ exists success error,
       calls c'
       = calls c
         ++ [YggAuthenticate (m_Username c) (m_Password c);
             YggJoinServer (GetUTF16 serverId)
               (AES_GetSharedSecret (fst created)) publicKey;
             Notify (OnAuthentication success error);
             SocketSend
               (snd (Encrypt (m_Encrypter c)
                       (Compress (m_Compressor c)
                          (Serialize (snd created)))))].
Proof.
  cbn zeta. unfold HandlePacket_EncryptionRequest.
  destruct (AES_GenerateResponsePacket _) as [aes resp]; cbn [fst snd].
  split; [reflexivity|].
  cbn [calls set_Encrypter].
  rewrite SendPacket_calls, AuthenticateClient_calls.
  destruct (AuthenticateClient_frame (GetUTF16 serverId)
              (AES_GetSharedSecret aes) publicKey c) as (He & Hz & _).
  rewrite He, Hz.
  eexists _, _. rewrite <- app_assoc. reflexivity.
Qed.

(** C10.  When neither the validation nor the join-server call returns
    [true], [AuthenticateClient] notifies the listeners once, with
    [success = false] and the message of the join-server failure; the
    message of the validation failure is not reported. *)
Theorem AuthenticateClient_both_fail (sid secret key : string)
    (c : Connection) (y1 y2 : Yggdrasil) (r1 r2 : YggResult) :
  Ygg_Authenticate (m_Yggdrasil c) (m_Username c) (m_Password c) = (y1, r1) ->
  Ygg_JoinServer y1 sid secret key = (y2, r2) ->
  ygg_failed r1 = true ->
  ygg_failed r2 = true ->
  calls (AuthenticateClient sid secret key c)
  = calls c
    ++ [YggAuthenticate (m_Username c) (m_Password c);
        YggJoinServer sid secret key;
        Notify (OnAuthentication false
                  match r2 with
                  | YggThrow what => what
                  | YggReturn _ => "Failed to join server through Yggdrasil."
                  end)].
Proof.
  intros H1 H2 Hr1 Hr2.
  rewrite AuthenticateClient_calls. cbn zeta.
  rewrite H1; cbn [fst snd]. rewrite H2; cbn [fst snd].
  destruct r1 as [[|]|what1]; [discriminate Hr1| |];
    (destruct r2 as [[|]|what2]; [discriminate Hr2| |]; reflexivity).
Qed.

(** C1, as the code has it.  When the validation returns [false],
    [AuthenticateClient] still calls join-server, with the arguments it was
    given; the listeners are told of a failure, with the error "Failed to
    authenticate" when join-server returns [true], and with the join-server
    failure message otherwise. *)
Theorem AuthenticateClient_rejected (sid secret key : string)
    (c : Connection) (y1 : Yggdrasil) :
  Ygg_Authenticate (m_Yggdrasil c) (m_Username c) (m_Password c)
  = (y1, YggReturn false) ->
  calls (AuthenticateClient sid secret key c)
  = calls c
    ++ [YggAuthenticate (m_Username c) (m_Password c);
        YggJoinServer sid secret key;
        Notify (OnAuthentication false
                  match snd (Ygg_JoinServer y1 sid secret key) with
                  | YggReturn true => "Failed to authenticate"
                  | YggReturn false =>
                      "Failed to join server through Yggdrasil."
                  | YggThrow what => what
                  end)].
Proof.
  intros H1.
  rewrite AuthenticateClient_calls. cbn zeta.
  rewrite H1; cbn [fst snd].
  destruct (snd (Ygg_JoinServer y1 sid secret key)) as [[|]|what];
    reflexivity.
Qed.

End Handlers.

(** ** The frame assembler and the poll *)

Section Assembler.

Context {world : Collaborators}.

Lemma compact_unread (c : Connection) :
  m_HandleBuffer (compact c)
  = DataBuffer.mk (DataBuffer.unread (m_HandleBuffer c)) 0.
Proof.
  unfold compact, DataBuffer.IsFinished, DataBuffer.GetSize,
    DataBuffer.GetReadOffset, DataBuffer.unread.
  destruct (Nat.leb_spec (length (DataBuffer.m_Buffer (m_HandleBuffer c)))
              (DataBuffer.m_ReadOffset (m_HandleBuffer c))) as [Hfin|Hmore].
  - cbn. rewrite skipn_all2 by assumption. reflexivity.
  - destruct (Nat.eqb_spec (DataBuffer.m_ReadOffset (m_HandleBuffer c)) 0)
      as [Hzero|Hpos]; cbn.
    + rewrite Hzero. cbn. destruct (m_HandleBuffer c) as [bs off].
      cbn in Hzero. subst off. reflexivity.
    + reflexivity.
Qed.

(** C4.  When no byte at the cursor ends the length VarInt, or when the
    decoded length is larger than what remains after the length field,
    [CreatePacket(DataBuffer&)] returns [nullptr] and leaves the buffer as
    it found it, cursor included; the loop of the poll then stops at once
    without any call, and the compaction keeps every unread byte. *)
Theorem CreatePacket_from_insufficient (c : Connection) :
  let buffer := m_HandleBuffer c in
  (VarInt.unterminated (DataBuffer.unread buffer)
   \/ exists length n,
        VarInt.decode (DataBuffer.unread buffer) 0 0 = Some (length, n)
        /\ Z.of_nat (DataBuffer.GetRemaining buffer - n)
           < u32 (VarInt.GetInt length)) ->
  CreatePacket_from buffer c = (buffer, Null)
  /\ (forall fuel, assemble (S fuel) c = Some c)
  /\ m_HandleBuffer (compact c)
     = DataBuffer.mk (DataBuffer.unread buffer) 0.
Proof.
  intros buffer Hshort.
  assert (Hnull : CreatePacket_from buffer c = (buffer, Null)).
  { unfold CreatePacket_from, VarInt.read.
    destruct Hshort as [Hopen | (v & n & Hd & Hlt)].
    - apply (decode_incomplete _ 0 0) in Hopen. rewrite Hopen. reflexivity.
    - rewrite Hd.
      replace (DataBuffer.GetRemaining
                 (DataBuffer.SetReadOffset buffer
                    (DataBuffer.m_ReadOffset buffer + n)))
        with (DataBuffer.GetRemaining buffer - n)%nat
        by (unfold DataBuffer.GetRemaining, DataBuffer.GetSize; cbn; lia).
      apply Z.ltb_lt in Hlt. rewrite Hlt.
      unfold DataBuffer.GetReadOffset. cbn.
      destruct buffer; reflexivity. }
  split; [assumption|]. split.
  - intros fuel. cbn [assemble]. fold buffer. rewrite Hnull.
    unfold buffer. rewrite set_HandleBuffer_same. reflexivity.
  - apply compact_unread.
Qed.


(** C9.  A poll in which the socket delivers no byte and reports Connected
    returns having only called [Receive]: the pending buffer, the codecs and
    the protocol state are as before, and nothing is dispatched, whatever
    the pending buffer holds. *)
Theorem CreatePacket_no_bytes (c : Connection) (sock : TCPSocket) :
  Socket_Receive (m_Socket c) 4096 = (sock, []) ->
  Socket_GetStatus sock = Socket.Connected ->
  exists c',
    CreatePacket c = Some c'
    /\ m_HandleBuffer c' = m_HandleBuffer c
    /\ m_Encrypter c' = m_Encrypter c
    /\ m_Compressor c' = m_Compressor c
    /\ m_ProtocolState c' = m_ProtocolState c
    /\ calls c' = calls c ++ [SocketReceive 4096 []].
Proof.
  intros Hrecv Hstatus.
  unfold CreatePacket. rewrite Hrecv. cbn. rewrite Hstatus. cbn.
  eexists. split; [reflexivity|]. repeat split.
Qed.

End Assembler.

(** ** Connect *)

Section Connecting.

Context {world : Collaborators}.

Lemma connect_each_tried (addrs : list IPAddress) (port : Z) :
  forall c : Connection,
    exists attempts,
      calls (fst (connect_each addrs port c)) = calls c ++ attempts
      /\ tried addrs port (snd (connect_each addrs port c)) attempts.
Proof.
  induction addrs as [|addr rest IH]; intros c; cbn [connect_each].
  - exists []. split; [symmetry; apply app_nil_r | reflexivity].
  - destruct (Socket_Connect (m_Socket c) addr port) as [sock [|]].
    + exists [SocketConnect addr port true]. split; [reflexivity|].
      exists [], addr, rest. split; reflexivity.
    + destruct (IH (log_call (SocketConnect addr port false)
                      (set_Socket sock c)))
        as (attempts & Hcalls & Htried).
      exists (SocketConnect addr port false :: attempts).
      split.
      * rewrite Hcalls. cbn. rewrite <- app_assoc. reflexivity.
      * unfold tried in *.
        destruct (snd (connect_each rest port _)).
        -- destruct Htried as (failed & a & l & Haddrs & Hatt).
           exists (addr :: failed), a, l. subst. split; reflexivity.
        -- subst. reflexivity.
Qed.

(** X20.  What [Connect] does with a non-empty host.  It looks at the
    first character only: when that is a decimal digit the host itself is
    the one address tried, and the resolver is not called; otherwise the
    host is resolved and the addresses are tried in order up to the first
    success.  It returns whether a connection succeeded, and notifies the
    listeners of the socket status exactly when one did. *)
Theorem Connect_attempts (ch : ascii) (rest : string) (port : Z)
    (c : Connection) :
  let host := String ch rest in
  let c' := fst (Connect host port c) in
  exists (result : bool) (attempts : list Call),
    snd (Connect host port c) = Some result
    /\ tried (if isdigit ch then [IPAddress_of_string host]
              else Dns_Resolve host) port result attempts
    /\ calls c'
       = calls c
         ++ (if isdigit ch then [] else [DnsResolve host])
         ++ attempts
         ++ (if result
             then [Notify (OnSocketStateChange
                             (Socket_GetStatus (m_Socket c')))]
             else []).
Proof.
  cbn zeta. unfold Connect. cbn [m_Server set_Server m_Port m_Socket].
  destruct (isdigit ch).
  - destruct (Socket_Connect (m_Socket c) _ port) as [sock [|]];
      cbn [connect_result fst snd].
    + exists true, [SocketConnect (IPAddress_of_string (String ch rest))
                      port true].
      split; [reflexivity|]. split.
      * exists [], (IPAddress_of_string (String ch rest)), [].
        split; reflexivity.
      * cbn. rewrite <- app_assoc. reflexivity.
    + exists false, [SocketConnect (IPAddress_of_string (String ch rest))
                       port false].
      split; [reflexivity|]. split; reflexivity.
  - destruct (Dns_Resolve (String ch rest)) as [|addr addrs] eqn:Hres.
    + exists false, []. split; [reflexivity|]. split; reflexivity.
    + set (c1 := log_call _ _).
      destruct (connect_each_tried (addr :: addrs) port c1)
        as (attempts & Hcalls & Htried).
      change (m_Port c1) with port.
      destruct (connect_each (addr :: addrs) port c1) as [c2 result].
      cbn [fst snd] in *.
      exists result, attempts. split; [reflexivity|].
      split; [assumption|].
      destruct result; cbn [connect_result fst NotifyListeners log_call calls];
        rewrite Hcalls; unfold c1; cbn [calls log_call set_Server];
        rewrite <- ?app_assoc; cbn; rewrite ?app_nil_r; reflexivity.
Qed.

End Connecting.

(** ** More on the frame assembler: whole frames, and what the loop reads *)

Lemma unread_advance (b : DataBuffer.t) (k : nat) :
  DataBuffer.unread
    (DataBuffer.SetReadOffset b (DataBuffer.m_ReadOffset b + k))
  = skipn k (DataBuffer.unread b).
Proof.
  unfold DataBuffer.unread, DataBuffer.SetReadOffset; cbn.
  rewrite skipn_skipn. f_equal. lia.
Qed.

Lemma IsFinished_unread (b : DataBuffer.t) :
  DataBuffer.IsFinished b
  = match DataBuffer.unread b with [] => true | _ :: _ => false end.
Proof.
  unfold DataBuffer.IsFinished, DataBuffer.GetSize.
  pose proof (unread_length b) as Hlen.
  unfold DataBuffer.GetRemaining, DataBuffer.GetSize in Hlen.
  destruct (Nat.leb_spec (length (DataBuffer.m_Buffer b))
              (DataBuffer.m_ReadOffset b));
    destruct (DataBuffer.unread b); cbn in Hlen; try reflexivity; lia.
Qed.

(** A length that fits an [int] and is not negative is the same as an
    [int] and as a [u32]. *)
Lemma GetInt_small (len : Z) :
  0 <= len < 2 ^ 31 -> VarInt.GetInt len = len /\ u32 len = len.
Proof.
  unfold VarInt.GetInt, s32, u32.
  change (2 ^ 32) with 4294967296. change (2 ^ 31) with 2147483648.
  intros H. rewrite !Z.mod_small by lia. lia.
Qed.

Section Frames.

Context {world : Collaborators}.

Lemma set_HandleBuffer_twice (b b' : DataBuffer.t) (c : Connection) :
  set_HandleBuffer b' (set_HandleBuffer b c) = set_HandleBuffer b' c.
Proof. reflexivity. Qed.

Lemma SendPacket_set_HandleBuffer (packet : Outbound.Packet)
    (b : DataBuffer.t) (c : Connection) :
  SendPacket packet (set_HandleBuffer b c)
  = set_HandleBuffer b (SendPacket packet c).
Proof.
  unfold SendPacket; cbn.
  destruct (Encrypt _ _) as [e out]; reflexivity.
Qed.

Lemma AuthenticateClient_set_HandleBuffer (sid secret key : string)
    (b : DataBuffer.t) (c : Connection) :
  AuthenticateClient sid secret key (set_HandleBuffer b c)
  = set_HandleBuffer b (AuthenticateClient sid secret key c).
Proof.
  unfold AuthenticateClient; cbn.
  destruct (Ygg_Authenticate _ _ _) as [y1 r1]; cbn.
  destruct (Ygg_JoinServer _ _ _ _) as [y2 r2]; reflexivity.
Qed.

(** The handlers neither read nor write the pending buffer. *)
Lemma dispatch_set_HandleBuffer (packet : Inbound.Packet)
    (b : DataBuffer.t) (c : Connection) :
  dispatch packet (set_HandleBuffer b c)
  = set_HandleBuffer b (dispatch packet c).
Proof.
  destruct packet; cbn [dispatch].
  - unfold HandlePacket_KeepAlive.
    apply (SendPacket_set_HandleBuffer _ b (log_call _ c)).
  - unfold HandlePacket_PlayerPositionAndLook.
    rewrite <- !SendPacket_set_HandleBuffer. reflexivity.
  - unfold HandlePacket_Disconnect; cbn.
    destruct (Protocol.State_eqb _ _); reflexivity.
  - unfold HandlePacket_EncryptionRequest.
    destruct (AES_GenerateResponsePacket _) as [aes resp].
    change (log_call ?x (set_HandleBuffer b c))
      with (set_HandleBuffer b (log_call x c)).
    rewrite AuthenticateClient_set_HandleBuffer, SendPacket_set_HandleBuffer.
    reflexivity.
  - reflexivity.
  - reflexivity.
  - reflexivity.
Qed.

Lemma more_to_read_unread (c : Connection) :
  more_to_read c
  = match DataBuffer.unread (m_HandleBuffer c) with
    | [] => false
    | _ :: _ => true
    end.
Proof.
  unfold more_to_read. rewrite IsFinished_unread.
  pose proof (unread_length (m_HandleBuffer c)) as Hlen.
  unfold DataBuffer.GetRemaining in Hlen.
  destruct (DataBuffer.unread (m_HandleBuffer c)); [reflexivity|].
  cbn in Hlen. cbn.
  destruct (DataBuffer.GetSize (m_HandleBuffer c)); [lia | reflexivity].
Qed.

Lemma CreatePacket_from_outcome (buffer : DataBuffer.t) (c : Connection) :
  snd (CreatePacket_from buffer c)
  = fst (frame_outcome (DataBuffer.unread buffer) c)
  /\ DataBuffer.unread (fst (CreatePacket_from buffer c))
     = snd (frame_outcome (DataBuffer.unread buffer) c).
Proof.
  unfold CreatePacket_from, frame_outcome, VarInt.read.
  destruct (VarInt.decode _ 0 0) as [[v n]|] eqn:Hd; [|split; reflexivity].
  replace (DataBuffer.GetRemaining
             (DataBuffer.SetReadOffset buffer
                (DataBuffer.m_ReadOffset buffer + n)))
    with (length (DataBuffer.unread buffer) - n)%nat
    by (rewrite unread_length;
        unfold DataBuffer.GetRemaining, DataBuffer.GetSize; cbn; lia).
  destruct (_ <? _).
  - unfold DataBuffer.GetReadOffset; cbn [fst snd].
    split; [reflexivity|]. destruct buffer; reflexivity.
  - unfold Decompress, DataBuffer.ReadSome.
    cbn [fst snd DataBuffer.m_Buffer DataBuffer.m_ReadOffset
         DataBuffer.SetReadOffset].
    rewrite (unread_advance buffer n).
    split; [reflexivity|].
    change (DataBuffer.mk (DataBuffer.m_Buffer buffer)
              (DataBuffer.m_ReadOffset buffer + n
               + Z.to_nat (VarInt.GetInt v)))
      with (DataBuffer.SetReadOffset buffer
              (DataBuffer.m_ReadOffset buffer + n
               + Z.to_nat (VarInt.GetInt v))).
    rewrite <- Nat.add_assoc, unread_advance, skipn_skipn.
    f_equal. lia.
Qed.

End Frames.

Section WholeFrames.

Context {world : Collaborators}.

(** A whole frame at the cursor: what [CreatePacket(DataBuffer&)] returns. *)
Lemma CreatePacket_from_frame (buffer : DataBuffer.t) (c : Connection)
    (len : Z) (n : nat) :
  VarInt.decode (DataBuffer.unread buffer) 0 0 = Some (len, n) ->
  0 <= len < 2 ^ 31 ->
  (n + Z.to_nat len <= DataBuffer.GetRemaining buffer)%nat ->
  CreatePacket_from buffer c
  = (DataBuffer.SetReadOffset buffer
       (DataBuffer.m_ReadOffset buffer + n + Z.to_nat len),
     PacketFactory_CreatePacket (m_ProtocolState c)
       (DataBuffer.mk
          (inflate (m_Compressor c)
             (firstn (Z.to_nat len) (skipn n (DataBuffer.unread buffer))))
          0) len).
Proof.
  intros Hd Hlen Hfull.
  unfold CreatePacket_from, VarInt.read. rewrite Hd.
  destruct (GetInt_small len Hlen) as [Hint Hu32].
  rewrite Hint, Hu32.
  destruct (Z.ltb_spec
              (Z.of_nat
                 (DataBuffer.GetRemaining
                    (DataBuffer.SetReadOffset buffer
                       (DataBuffer.m_ReadOffset buffer + n)))) len)
    as [Hshort|_].
  - unfold DataBuffer.GetRemaining, DataBuffer.GetSize in *.
    cbn in Hshort. lia.
  - unfold Decompress, DataBuffer.ReadSome.
    rewrite (unread_advance buffer n). reflexivity.
Qed.

(** The length VarInt is unfinished, or the frame is: [nullptr], and the
    buffer as it was. *)
Lemma CreatePacket_from_short (buffer : DataBuffer.t) (c : Connection) :
  (VarInt.unterminated (DataBuffer.unread buffer)
   \/ exists length n,
        VarInt.decode (DataBuffer.unread buffer) 0 0 = Some (length, n)
        /\ Z.of_nat (DataBuffer.GetRemaining buffer - n)
           < u32 (VarInt.GetInt length)) ->
  CreatePacket_from buffer c = (buffer, Null).
Proof.
  intros Hshort.
  pose proof (CreatePacket_from_outcome buffer c) as [Hr Hu].
  pose proof (CreatePacket_from_cursor buffer c) as (Hbytes & Hle & _).
  assert (Hout : frame_outcome (DataBuffer.unread buffer) c
                 = (Null, DataBuffer.unread buffer)).
  { unfold frame_outcome.
    destruct Hshort as [Hopen | (v & n & Hd & Hlt)].
    - apply (decode_incomplete _ 0 0) in Hopen. rewrite Hopen. reflexivity.
    - rewrite Hd, unread_length.
      apply Z.ltb_lt in Hlt. rewrite Hlt. reflexivity. }
  rewrite Hout in Hr, Hu. cbn [fst snd] in Hr, Hu.
  unfold CreatePacket_from, VarInt.read in *.
  destruct (VarInt.decode _ 0 0) as [[v n]|] eqn:Hd; [|reflexivity].
  destruct (_ <? _).
  - unfold DataBuffer.GetReadOffset. cbn. destruct buffer; reflexivity.
  - unfold Decompress, DataBuffer.ReadSome in *. cbn [fst snd] in Hr.
    apply decode_consumed in Hd. rewrite unread_length in Hd.
    cbn [fst snd] in Hu.
    apply (f_equal (@length byte)) in Hu.
    rewrite !unread_length in Hu.
    unfold DataBuffer.GetRemaining, DataBuffer.GetSize in *.
    cbn in Hu. lia.
Qed.

(** X1.  When the length VarInt at the cursor decodes to [len] and the
    [len] bytes that follow it are all there, [CreatePacket(DataBuffer&)]
    hands the packet factory the decompression of exactly those [len] bytes
    with the declared length [len], and leaves the cursor right after the
    frame, whatever the factory returns. *)
Theorem CreatePacket_from_whole_frame (buffer : DataBuffer.t)
    (c : Connection) (len : Z) (n : nat) :
  VarInt.decode (DataBuffer.unread buffer) 0 0 = Some (len, n) ->
  0 <= len < 2 ^ 31 ->
  (n + Z.to_nat len <= DataBuffer.GetRemaining buffer)%nat ->
  let payload :=
    firstn (Z.to_nat len) (skipn n (DataBuffer.unread buffer)) in
  CreatePacket_from buffer c
  = (DataBuffer.SetReadOffset buffer
       (DataBuffer.m_ReadOffset buffer + n + Z.to_nat len),
     PacketFactory_CreatePacket (m_ProtocolState c)
       (DataBuffer.mk (inflate (m_Compressor c) payload) 0) len)
  /\ length payload = Z.to_nat len
  /\ DataBuffer.unread
       (DataBuffer.SetReadOffset buffer
          (DataBuffer.m_ReadOffset buffer + n + Z.to_nat len))
     = skipn (n + Z.to_nat len) (DataBuffer.unread buffer).
Proof.
  intros Hd Hlen Hfull payload. split; [|split].
  - apply CreatePacket_from_frame; assumption.
  - unfold payload. rewrite length_firstn, length_skipn, unread_length. lia.
  - rewrite <- Nat.add_assoc. apply unread_advance.
Qed.

Lemma assemble_continue_from_unread (fuel : nat) (c' : Connection)
    (IH : forall (c : Connection) (b : DataBuffer.t),
        DataBuffer.unread b = DataBuffer.unread (m_HandleBuffer c) ->
        assemble fuel c = Some c' ->
        exists b', assemble fuel (set_HandleBuffer b c)
                   = Some (set_HandleBuffer b' c')
          /\ DataBuffer.unread b' = DataBuffer.unread (m_HandleBuffer c'))
    (c1 : Connection) (b1 : DataBuffer.t) :
  DataBuffer.unread b1 = DataBuffer.unread (m_HandleBuffer c1) ->
  (if more_to_read c1 then assemble fuel c1 else Some c1) = Some c' ->
  exists b',
    (if more_to_read (set_HandleBuffer b1 c1)
     then assemble fuel (set_HandleBuffer b1 c1)
     else Some (set_HandleBuffer b1 c1))
    = Some (set_HandleBuffer b' c')
    /\ DataBuffer.unread b' = DataBuffer.unread (m_HandleBuffer c').
Proof.
  intros Hun Hgo.
  rewrite (more_to_read_unread (set_HandleBuffer b1 c1)).
  rewrite more_to_read_unread in Hgo.
  cbn [m_HandleBuffer set_HandleBuffer]. rewrite Hun.
  destruct (DataBuffer.unread (m_HandleBuffer c1)) eqn:Hrest.
  - inversion Hgo; subst c'. exists b1. split; [reflexivity|].
    rewrite Hun. symmetry. exact Hrest.
  - apply IH; [congruence | assumption].
Qed.

(** The loop of [CreatePacket()] on a buffer with the same unread bytes. *)
Lemma assemble_from_unread (fuel : nat) :
  forall (c c' : Connection) (b : DataBuffer.t),
    DataBuffer.unread b = DataBuffer.unread (m_HandleBuffer c) ->
    assemble fuel c = Some c' ->
    exists b',
      assemble fuel (set_HandleBuffer b c) = Some (set_HandleBuffer b' c')
      /\ DataBuffer.unread b' = DataBuffer.unread (m_HandleBuffer c').
Proof.
  induction fuel as [|fuel IH]; intros c c' b Hun Hrun;
    [discriminate Hrun|].
  cbn [assemble] in *.
  change (m_HandleBuffer (set_HandleBuffer b c)) with b.
  destruct (CreatePacket_from_outcome (m_HandleBuffer c) c) as [Hr Hu].
  destruct (CreatePacket_from_outcome b (set_HandleBuffer b c)) as [Hr' Hu'].
  change (frame_outcome (DataBuffer.unread b) (set_HandleBuffer b c))
    with (frame_outcome (DataBuffer.unread b) c) in Hr', Hu'.
  rewrite Hun in Hr', Hu'. rewrite <- Hr in Hr'. rewrite <- Hu in Hu'.
  destruct (CreatePacket_from (m_HandleBuffer c) c) as [buf r].
  destruct (CreatePacket_from b (set_HandleBuffer b c)) as [buf' r'].
  cbn [fst snd] in *. subst r'.
  change (set_HandleBuffer buf' (set_HandleBuffer b c))
    with (set_HandleBuffer buf' (set_HandleBuffer buf c)).
  destruct r as [packet| |].
  - rewrite dispatch_set_HandleBuffer.
    apply (assemble_continue_from_unread fuel c'
             (fun c0 b0 => IH c0 c' b0)); [|assumption].
    rewrite dispatch_HandleBuffer. exact Hu'.
  - inversion Hrun; subst c'. exists buf'. split; [reflexivity | exact Hu'].
  - apply (assemble_continue_from_unread fuel c'
             (fun c0 b0 => IH c0 c' b0)); assumption.
Qed.

(** X2.  The loop of [CreatePacket()] reads the pending buffer from the
    cursor on and nothing before it: had the consumed bytes been dropped
    before the loop (the buffer compacted, cursor at zero), the loop would
    end in the same connection, calls included, with the same unread bytes
    pending. *)
Theorem assemble_after_compaction (fuel : nat) (c c' : Connection) :
  assemble fuel c = Some c' ->
  exists b',
    assemble fuel
      (set_HandleBuffer
         (DataBuffer.from_offset (m_HandleBuffer c)
            (DataBuffer.GetReadOffset (m_HandleBuffer c))) c)
    = Some (set_HandleBuffer b' c')
    /\ DataBuffer.unread b' = DataBuffer.unread (m_HandleBuffer c').
Proof.
  apply assemble_from_unread. reflexivity.
Qed.

End WholeFrames.

(** ** What a poll keeps *)

Section Polls.

Context {world : Collaborators}.

Lemma SendPacket_encrypting (packet : Outbound.Packet) (c : Connection) :
  encrypting (SendPacket packet c) = encrypting c.
Proof.
  unfold SendPacket, encrypting, Encrypt.
  destruct (m_Encrypter c) as [|a]; [reflexivity|].
  destruct (AES_Encrypt a _); reflexivity.
Qed.

Lemma AuthenticateClient_ProtocolState (sid secret key : string)
    (c : Connection) :
  m_ProtocolState (AuthenticateClient sid secret key c) = m_ProtocolState c.
Proof.
  unfold AuthenticateClient.
  destruct (Ygg_Authenticate _ _ _) as [y1 r1]; cbn.
  destruct (Ygg_JoinServer _ _ _ _) as [y2 r2]; reflexivity.
Qed.

(** The protocol state after a handler: as before, or Play. *)
Lemma dispatch_ProtocolState (packet : Inbound.Packet) (c : Connection) :
  m_ProtocolState (dispatch packet c) = m_ProtocolState c
  \/ m_ProtocolState (dispatch packet c) = Protocol.Play.
Proof.
  destruct packet; cbn [dispatch].
  - left. apply (SendPacket_frame _ (log_call _ c)).
  - left. unfold HandlePacket_PlayerPositionAndLook.
    rewrite (proj1 (proj2 (proj2 (SendPacket_frame _ _)))).
    apply (SendPacket_frame _ (log_call _ c)).
  - left. unfold HandlePacket_Disconnect; cbn.
    destruct (Protocol.State_eqb _ _); reflexivity.
  - left. unfold HandlePacket_EncryptionRequest.
    destruct (AES_GenerateResponsePacket _) as [aes resp]; cbn.
    rewrite (proj1 (proj2 (proj2 (SendPacket_frame _ _)))).
    rewrite AuthenticateClient_ProtocolState. reflexivity.
  - right. reflexivity.
  - left. reflexivity.
  - left. reflexivity.
Qed.

(** No handler disables a codec. *)
Lemma dispatch_codecs (packet : Inbound.Packet) (c : Connection) :
  (encrypting c = true -> encrypting (dispatch packet c) = true)
  /\ (compressing c = true -> compressing (dispatch packet c) = true).
Proof.
  destruct packet; cbn [dispatch].
  - unfold HandlePacket_KeepAlive, compressing.
    rewrite SendPacket_encrypting.
    rewrite (proj1 (proj2 (SendPacket_frame _ _))). split; trivial.
  - unfold HandlePacket_PlayerPositionAndLook, compressing.
    rewrite !SendPacket_encrypting.
    rewrite !(proj1 (proj2 (SendPacket_frame _ _))). split; trivial.
  - unfold HandlePacket_Disconnect; cbn.
    destruct (Protocol.State_eqb _ _); split; trivial.
  - unfold HandlePacket_EncryptionRequest.
    destruct (AES_GenerateResponsePacket _) as [aes resp].
    split; [reflexivity|].
    unfold compressing; cbn.
    rewrite (proj1 (proj2 (SendPacket_frame _ _))).
    rewrite (proj1 (proj2 (AuthenticateClient_frame _ _ _ _))). trivial.
  - split; trivial.
  - split; [trivial | reflexivity].
  - split; trivial.
Qed.

(** The calls of a handler are appended to the log, and none of them
    connects, resolves or receives. *)
Lemma dispatch_calls (packet : Inbound.Packet) (c : Connection) :
  exists made,
    calls (dispatch packet c) = calls c ++ made
    /\ forallb made_by_handlers made = true.
Proof.
  destruct packet; cbn [dispatch].
  - unfold HandlePacket_KeepAlive. rewrite SendPacket_calls.
    cbn [calls log_call].
    rewrite <- app_assoc. eexists; split; reflexivity.
  - unfold HandlePacket_PlayerPositionAndLook.
    rewrite !SendPacket_calls. cbn [calls log_call].
    rewrite <- !app_assoc. eexists; split; reflexivity.
  - unfold HandlePacket_Disconnect, NotifyListeners; cbn.
    destruct (Protocol.State_eqb _ _); cbn; rewrite <- !app_assoc;
      eexists; split; reflexivity.
  - unfold HandlePacket_EncryptionRequest.
    destruct (AES_GenerateResponsePacket _) as [aes resp];
      cbn [calls set_Encrypter].
    rewrite SendPacket_calls, AuthenticateClient_calls. cbn [calls log_call].
    rewrite <- !app_assoc. eexists; split; reflexivity.
  - unfold HandlePacket_LoginSuccess, NotifyListeners; cbn.
    rewrite <- app_assoc. eexists; split; reflexivity.
  - exists [Dispatch (Inbound.SetCompressionPacket maxPacketSize)].
    split; reflexivity.
  - exists [Dispatch (Inbound.Other state id)]. split; reflexivity.
Qed.

(** What the handlers and the moves of the cursor keep, the loop keeps. *)
Lemma assemble_keeps (P : Connection -> Prop)
    (Hbuffer : forall b c, P c -> P (set_HandleBuffer b c))
    (Hdispatch : forall packet c, P c -> P (dispatch packet c))
    (fuel : nat) :
  forall c c' : Connection, assemble fuel c = Some c' -> P c -> P c'.
Proof.
  induction fuel as [|fuel IH]; intros c c' Hrun HP; [discriminate Hrun|].
  cbn [assemble] in Hrun.
  destruct (CreatePacket_from (m_HandleBuffer c) c) as [buffer r].
  destruct r as [packet| |].
  - destruct (more_to_read _).
    + apply (IH _ _ Hrun). apply Hdispatch, Hbuffer, HP.
    + inversion Hrun; subst c'. apply Hdispatch, Hbuffer, HP.
  - inversion Hrun; subst c'. apply Hbuffer, HP.
  - destruct (more_to_read _).
    + apply (IH _ _ Hrun). apply Hbuffer, HP.
    + inversion Hrun; subst c'. apply Hbuffer, HP.
Qed.

(** The same for a whole poll, for what receiving, decrypting, notifying
    and compacting keep as well. *)
Lemma CreatePacket_keeps (P : Connection -> Prop)
    (Hbuffer : forall b c, P c -> P (set_HandleBuffer b c))
    (Hdispatch : forall packet c, P c -> P (dispatch packet c))
    (c c' : Connection) :
  CreatePacket c = Some c' ->
  (forall sock received,
      Socket_Receive (m_Socket c) 4096 = (sock, received) ->
      P (log_call (SocketReceive 4096 received) (set_Socket sock c))) ->
  (forall c0 event, P c0 -> P (NotifyListeners event c0)) ->
  (forall c0 received,
      P c0 -> P (set_Encrypter (fst (Decrypt (m_Encrypter c0) received)) c0)) ->
  P c'.
Proof.
  intros Hpoll Hrecv Hnotify Hdecrypt.
  unfold CreatePacket in Hpoll.
  destruct (Socket_Receive (m_Socket c) 4096) as [sock received].
  specialize (Hrecv sock received eq_refl).
  destruct (negb _).
  - inversion Hpoll; subst c'. apply Hnotify, Hrecv.
  - destruct (length received =? 0)%nat.
    + inversion Hpoll; subst c'. exact Hrecv.
    + destruct (assemble _ _) as [looped|] eqn:Hrun; [|discriminate Hpoll].
      inversion Hpoll; subst c'.
      assert (Hlooped : P looped).
      { apply (assemble_keeps P Hbuffer Hdispatch _ _ _ Hrun).
        unfold receive_into.
        specialize (Hdecrypt _ received Hrecv).
        destruct (Decrypt _ received) as [e plain].
        apply Hbuffer. exact Hdecrypt. }
      unfold compact.
      destruct (DataBuffer.IsFinished _); [apply Hbuffer, Hlooped|].
      destruct (negb _); [apply Hbuffer, Hlooped | exact Hlooped].
Qed.

(** X3.  A poll moves the protocol state to Play or leaves it where it
    was: in particular a connection in Play stays in Play through any
    number of polls, disconnects included. *)
Theorem CreatePacket_ProtocolState (c c' : Connection) :
  CreatePacket c = Some c' ->
  m_ProtocolState c' = m_ProtocolState c
  \/ m_ProtocolState c' = Protocol.Play.
Proof.
  intros Hpoll.
  apply (CreatePacket_keeps
           (fun x => m_ProtocolState x = m_ProtocolState c
                     \/ m_ProtocolState x = Protocol.Play)) with (c := c);
    try assumption.
  - intros b c0 H. exact H.
  - intros packet c0 [H|H];
      destruct (dispatch_ProtocolState packet c0) as [H'|H'];
      rewrite H'; auto.
  - intros sock received _. left. reflexivity.
  - intros c0 event H. exact H.
  - intros c0 received H. exact H.
Qed.

(** X4.  A poll never disables a codec: an encrypting connection is still
    encrypting after it, and a compressing one still compressing. *)
Theorem CreatePacket_keeps_codecs (c c' : Connection) :
  CreatePacket c = Some c' ->
  (encrypting c = true -> encrypting c' = true)
  /\ (compressing c = true -> compressing c' = true).
Proof.
  intros Hpoll.
  apply (CreatePacket_keeps
           (fun x => (encrypting c = true -> encrypting x = true)
                     /\ (compressing c = true -> compressing x = true)))
    with (c := c); try assumption.
  - intros b c0 H. exact H.
  - intros packet c0 [He Hz].
    destruct (dispatch_codecs packet c0) as [He' Hz']. split; auto.
  - intros sock received _. split; trivial.
  - intros c0 event H. exact H.
  - intros c0 received [He Hz]. split; [|exact Hz].
    intros H. specialize (He H). revert He.
    unfold encrypting, Decrypt; cbn.
    destruct (m_Encrypter c0) as [|a]; [trivial|].
    destruct (AES_Decrypt a received); trivial.
Qed.

(** X5.  A poll receives once, before anything else, and asks for at most
    4096 bytes; the calls that follow are those of the packet handlers: a
    poll never connects, never resolves and never receives a second
    time. *)
Theorem CreatePacket_receives_once (c c' : Connection) :
  CreatePacket c = Some c' ->
  exists made,
    calls c'
    = calls c
      ++ SocketReceive 4096 (snd (Socket_Receive (m_Socket c) 4096)) :: made
    /\ forallb made_by_handlers made = true.
Proof.
  intros Hpoll.
  apply (CreatePacket_keeps
           (fun x => exists made,
                calls x
                = calls c
                  ++ SocketReceive 4096
                       (snd (Socket_Receive (m_Socket c) 4096)) :: made
                /\ forallb made_by_handlers made = true))
    with (c := c); try assumption.
  - intros b c0 H. exact H.
  - intros packet c0 (made & Hc & Hm).
    destruct (dispatch_calls packet c0) as (more & Hc' & Hm').
    exists (made ++ more). split.
    + rewrite Hc', Hc, <- app_assoc. reflexivity.
    + rewrite forallb_app, Hm, Hm'. reflexivity.
  - intros sock received Hrecv. exists [].
    rewrite Hrecv. split; reflexivity.
  - intros c0 event (made & Hc & Hm).
    exists (made ++ [Notify event]). split.
    + unfold NotifyListeners; cbn. rewrite Hc, <- app_assoc. reflexivity.
    + rewrite forallb_app, Hm. reflexivity.
  - intros c0 received H. exact H.
Qed.

(** X6.  When the socket does not report Connected after [Receive], the
    poll notifies the listeners of the status and returns: whatever was
    received is dropped, undecrypted, and the pending buffer, the codecs
    and the protocol state are as before. *)
Theorem CreatePacket_not_connected (c : Connection) (sock : TCPSocket)
    (received : bytes) :
  Socket_Receive (m_Socket c) 4096 = (sock, received) ->
  Socket.Status_eqb (Socket_GetStatus sock) Socket.Connected = false ->
  exists c',
    CreatePacket c = Some c'
    /\ calls c'
       = calls c
         ++ [SocketReceive 4096 received;
             Notify (OnSocketStateChange (Socket_GetStatus sock))]
    /\ m_HandleBuffer c' = m_HandleBuffer c
    /\ m_Encrypter c' = m_Encrypter c
    /\ m_Compressor c' = m_Compressor c
    /\ m_ProtocolState c' = m_ProtocolState c.
Proof.
  intros Hrecv Hstatus.
  unfold CreatePacket. rewrite Hrecv. cbn [m_Socket set_Socket log_call].
  rewrite Hstatus. cbn [negb].
  eexists. split; [reflexivity|].
  unfold NotifyListeners; cbn. rewrite <- app_assoc. repeat split.
Qed.

(** X7.  Between polls the cursor of the pending buffer is at zero: a poll
    that finds it there leaves it there, on each of its paths. *)
Theorem CreatePacket_cursor_zero (c c' : Connection) :
  CreatePacket c = Some c' ->
  DataBuffer.m_ReadOffset (m_HandleBuffer c) = 0%nat ->
  DataBuffer.m_ReadOffset (m_HandleBuffer c') = 0%nat.
Proof.
  intros Hpoll Hzero.
  unfold CreatePacket in Hpoll.
  destruct (Socket_Receive (m_Socket c) 4096) as [sock received].
  destruct (negb _); [inversion Hpoll; subst c'; exact Hzero|].
  destruct (length received =? 0)%nat;
    [inversion Hpoll; subst c'; exact Hzero|].
  destruct (assemble _ _) as [looped|]; [|discriminate Hpoll].
  inversion Hpoll; subst c'.
  rewrite compact_unread. reflexivity.
Qed.

End Polls.

(** ** Frames through a poll *)

Section FramesThroughPolls.

Context {world : Collaborators}.

(** One turn of the loop on a whole frame. *)
Lemma assemble_frame (fuel : nat) (c : Connection) (len : Z) (n : nat) :
  VarInt.decode (DataBuffer.unread (m_HandleBuffer c)) 0 0 = Some (len, n) ->
  0 <= len < 2 ^ 31 ->
  (n + Z.to_nat len <= DataBuffer.GetRemaining (m_HandleBuffer c))%nat ->
  assemble (S fuel) c
  = let c1 :=
      set_HandleBuffer
        (DataBuffer.SetReadOffset (m_HandleBuffer c)
           (DataBuffer.m_ReadOffset (m_HandleBuffer c) + n + Z.to_nat len))
        c in
    match PacketFactory_CreatePacket (m_ProtocolState c)
            (DataBuffer.mk
               (inflate (m_Compressor c)
                  (firstn (Z.to_nat len)
                     (skipn n (DataBuffer.unread (m_HandleBuffer c))))) 0)
            len with
    | Created packet =>
        if more_to_read (dispatch packet c1)
        then assemble fuel (dispatch packet c1)
        else Some (dispatch packet c1)
    | Null => Some c1
    | UnfinishedProtocol =>
        if more_to_read c1 then assemble fuel c1 else Some c1
    end.
Proof.
  intros Hd Hlen Hfull. cbn [assemble].
  rewrite (CreatePacket_from_frame _ c len n Hd Hlen Hfull). reflexivity.
Qed.

(** The connection the loop of a poll starts from, when the pending buffer
    was empty. *)
Lemma receive_into_empty (received : bytes) (c : Connection) :
  m_HandleBuffer c = DataBuffer.empty ->
  m_HandleBuffer (receive_into received c)
  = DataBuffer.mk (snd (Decrypt (m_Encrypter c) received)) 0
  /\ m_Compressor (receive_into received c) = m_Compressor c
  /\ m_ProtocolState (receive_into received c) = m_ProtocolState c
  /\ calls (receive_into received c) = calls c.
Proof.
  intros Hempty. unfold receive_into.
  destruct (Decrypt _ _) as [e plain]; cbn. rewrite Hempty.
  repeat split.
Qed.

Lemma CreatePacket_received (c : Connection) (sock : TCPSocket)
    (received : bytes) :
  Socket_Receive (m_Socket c) 4096 = (sock, received) ->
  Socket_GetStatus sock = Socket.Connected ->
  (0 < length received)%nat ->
  CreatePacket c
  = let c0 :=
      receive_into received
        (log_call (SocketReceive 4096 received) (set_Socket sock c)) in
    match assemble (S (DataBuffer.GetRemaining (m_HandleBuffer c0))) c0 with
    | Some looped => Some (compact looped)
    | None => None
    end.
Proof.
  intros Hrecv Hstatus Hsome.
  unfold CreatePacket. rewrite Hrecv. cbn [m_Socket set_Socket log_call].
  rewrite Hstatus. cbn [Socket.Status_eqb negb].
  destruct (Nat.eqb_spec (length received) 0) as [Hz|_]; [lia|].
  reflexivity.
Qed.

(** X8.  One whole frame received on an empty pending buffer, which the
    packet factory decodes to a packet: the poll ends in the connection the
    handler of that packet leaves, run after the receive and the decryption,
    with an empty pending buffer.  The factory gets the payload inflated by
    the compressor and decoded for the protocol state of that moment. *)
Theorem CreatePacket_single_frame (c : Connection) (sock : TCPSocket)
    (received : bytes) (len : Z) (n : nat) (packet : Inbound.Packet) :
  m_HandleBuffer c = DataBuffer.empty ->
  Socket_Receive (m_Socket c) 4096 = (sock, received) ->
  Socket_GetStatus sock = Socket.Connected ->
  (0 < length received)%nat ->
  VarInt.decode (snd (Decrypt (m_Encrypter c) received)) 0 0
  = Some (len, n) ->
  0 <= len < 2 ^ 31 ->
  length (snd (Decrypt (m_Encrypter c) received)) = (n + Z.to_nat len)%nat ->
  PacketFactory_CreatePacket (m_ProtocolState c)
    (DataBuffer.mk
       (inflate (m_Compressor c)
          (skipn n (snd (Decrypt (m_Encrypter c) received)))) 0) len
  = Created packet ->
  CreatePacket c
  = Some (set_HandleBuffer DataBuffer.empty
            (dispatch packet
               (receive_into received
                  (log_call (SocketReceive 4096 received)
                     (set_Socket sock c))))).
Proof.
  intros Hempty Hrecv Hstatus Hsome Hd Hlen Hsize Hfactory.
  rewrite (CreatePacket_received c sock received Hrecv Hstatus Hsome).
  cbn zeta.
  set (c0 := receive_into received _).
  destruct (receive_into_empty received
              (log_call (SocketReceive 4096 received) (set_Socket sock c))
              Hempty) as (Hb0 & Hz0 & Hs0 & _).
  fold c0 in Hb0, Hz0, Hs0. cbn [m_Encrypter log_call set_Socket] in Hb0.
  set (plain := snd (Decrypt (m_Encrypter c) received)) in *.
  rewrite (assemble_frame _ c0 len n).
  - cbn zeta. rewrite Hb0, Hz0, Hs0.
    cbn [DataBuffer.unread DataBuffer.m_Buffer DataBuffer.m_ReadOffset skipn].
    rewrite (firstn_all2 (skipn n plain))
      by (rewrite length_skipn; lia).
    cbn [m_ProtocolState m_Compressor log_call set_Socket].
    rewrite Hfactory.
    rewrite dispatch_set_HandleBuffer.
    rewrite more_to_read_unread.
    cbn [m_HandleBuffer set_HandleBuffer].
    unfold DataBuffer.unread, DataBuffer.SetReadOffset.
    cbn [DataBuffer.m_Buffer DataBuffer.m_ReadOffset].
    rewrite skipn_all2 by lia.
    unfold compact.
    cbn [m_HandleBuffer set_HandleBuffer].
    unfold DataBuffer.IsFinished, DataBuffer.GetSize.
    cbn [DataBuffer.m_Buffer DataBuffer.m_ReadOffset].
    destruct (Nat.leb_spec (length plain) (0 + n + Z.to_nat len)) as [_|Hlt];
      [reflexivity | lia].
  - rewrite Hb0. exact Hd.
  - exact Hlen.
  - rewrite Hb0. unfold DataBuffer.GetRemaining, DataBuffer.GetSize. cbn.
    lia.
Qed.

(** X9.  A whole frame on which the packet factory returns [nullptr] is
    consumed all the same and ends the loop: nothing is dispatched, and the
    poll leaves as pending the bytes that follow the frame, whole frames
    included. *)
Theorem CreatePacket_null_frame (c : Connection) (sock : TCPSocket)
    (received : bytes) (len : Z) (n : nat) :
  m_HandleBuffer c = DataBuffer.empty ->
  Socket_Receive (m_Socket c) 4096 = (sock, received) ->
  Socket_GetStatus sock = Socket.Connected ->
  (0 < length received)%nat ->
  VarInt.decode (snd (Decrypt (m_Encrypter c) received)) 0 0
  = Some (len, n) ->
  0 <= len < 2 ^ 31 ->
  (n + Z.to_nat len
   <= length (snd (Decrypt (m_Encrypter c) received)))%nat ->
  PacketFactory_CreatePacket (m_ProtocolState c)
    (DataBuffer.mk
       (inflate (m_Compressor c)
          (firstn (Z.to_nat len)
             (skipn n (snd (Decrypt (m_Encrypter c) received))))) 0) len
  = Null ->
  exists c',
    CreatePacket c = Some c'
    /\ calls c' = calls c ++ [SocketReceive 4096 received]
    /\ m_HandleBuffer c'
       = DataBuffer.mk
           (skipn (n + Z.to_nat len)
              (snd (Decrypt (m_Encrypter c) received))) 0.
Proof.
  intros Hempty Hrecv Hstatus Hsome Hd Hlen Hsize Hfactory.
  rewrite (CreatePacket_received c sock received Hrecv Hstatus Hsome).
  cbn zeta.
  set (c0 := receive_into received _).
  destruct (receive_into_empty received
              (log_call (SocketReceive 4096 received) (set_Socket sock c))
              Hempty) as (Hb0 & Hz0 & Hs0 & Hc0).
  fold c0 in Hb0, Hz0, Hs0, Hc0.
  cbn [m_Encrypter log_call set_Socket] in Hb0.
  set (plain := snd (Decrypt (m_Encrypter c) received)) in *.
  rewrite (assemble_frame _ c0 len n).
  - cbn zeta. rewrite Hb0, Hz0, Hs0.
    cbn [DataBuffer.unread DataBuffer.m_Buffer DataBuffer.m_ReadOffset skipn].
    cbn [m_ProtocolState m_Compressor log_call set_Socket].
    rewrite Hfactory.
    eexists. split; [reflexivity|]. split.
    + unfold compact.
      destruct (DataBuffer.IsFinished _);
        [|destruct (negb _)]; cbn [calls set_HandleBuffer]; exact Hc0.
    + rewrite compact_unread. reflexivity.
  - rewrite Hb0. exact Hd.
  - exact Hlen.
  - rewrite Hb0. unfold DataBuffer.GetRemaining, DataBuffer.GetSize. cbn.
    lia.
Qed.

(** X10.  A whole frame on which the packet factory throws an
    [UnfinishedProtocolException] is skipped: the loop goes on as if the
    buffer had started after that frame, making the same calls and ending
    in the same connection with the same unread bytes. *)
Theorem assemble_skips_unfinished (fuel : nat) (c c' : Connection)
    (len : Z) (n : nat) :
  VarInt.decode (DataBuffer.unread (m_HandleBuffer c)) 0 0 = Some (len, n) ->
  0 <= len < 2 ^ 31 ->
  (n + Z.to_nat len <= DataBuffer.GetRemaining (m_HandleBuffer c))%nat ->
  PacketFactory_CreatePacket (m_ProtocolState c)
    (DataBuffer.mk
       (inflate (m_Compressor c)
          (firstn (Z.to_nat len)
             (skipn n (DataBuffer.unread (m_HandleBuffer c))))) 0) len
  = UnfinishedProtocol ->
  assemble (S (S fuel)) c = Some c' ->
  exists b',
    assemble (S fuel)
      (set_HandleBuffer
         (DataBuffer.mk
            (skipn (n + Z.to_nat len) (DataBuffer.unread (m_HandleBuffer c)))
            0) c)
    = Some (set_HandleBuffer b' c')
    /\ DataBuffer.unread b' = DataBuffer.unread (m_HandleBuffer c').
Proof.
  intros Hd Hlen Hfull Hfactory Hrun.
  rewrite (assemble_frame _ c len n Hd Hlen Hfull) in Hrun.
  cbn zeta in Hrun. rewrite Hfactory in Hrun.
  set (rest := DataBuffer.mk
                 (skipn (n + Z.to_nat len)
                    (DataBuffer.unread (m_HandleBuffer c))) 0).
  set (c1 := set_HandleBuffer _ c) in Hrun.
  assert (Hrest : DataBuffer.unread rest
                  = DataBuffer.unread (m_HandleBuffer c1)).
  { unfold c1. cbn [m_HandleBuffer set_HandleBuffer].
    rewrite <- Nat.add_assoc, unread_advance. reflexivity. }
  change (set_HandleBuffer rest c) with (set_HandleBuffer rest c1).
  rewrite more_to_read_unread in Hrun.
  destruct (DataBuffer.unread (m_HandleBuffer c1)) as [|b0 bs] eqn:Hleft.
  - inversion Hrun; subst c'.
    exists rest. split; [|rewrite Hleft; exact Hrest].
    cbn [assemble]. cbn [m_HandleBuffer set_HandleBuffer].
    assert (Hshort : CreatePacket_from rest (set_HandleBuffer rest c1)
                     = (rest, Null)).
    { apply CreatePacket_from_short. left. rewrite Hrest. constructor. }
    rewrite Hshort. reflexivity.
  - apply assemble_from_unread; [|exact Hrun].
    rewrite Hleft. exact Hrest.
Qed.

(** X11.  A chunk that ends inside a frame (inside its length, or inside
    its payload) is kept: the poll dispatches nothing, leaves the codecs and
    the protocol state alone, and leaves as pending the unread bytes with
    the decrypted chunk after them; whatever the next poll receives is
    appended to that, and its loop starts on the whole from cursor zero. *)
Theorem CreatePacket_keeps_partial_frame (c : Connection) (sock : TCPSocket)
    (received : bytes) :
  Socket_Receive (m_Socket c) 4096 = (sock, received) ->
  Socket_GetStatus sock = Socket.Connected ->
  (0 < length received)%nat ->
  let held :=
    DataBuffer.append (m_HandleBuffer c)
      (snd (Decrypt (m_Encrypter c) received)) in
  (VarInt.unterminated (DataBuffer.unread held)
   \/ exists length n,
        VarInt.decode (DataBuffer.unread held) 0 0 = Some (length, n)
        /\ Z.of_nat (DataBuffer.GetRemaining held - n)
           < u32 (VarInt.GetInt length)) ->
  exists c',
    CreatePacket c = Some c'
    /\ calls c' = calls c ++ [SocketReceive 4096 received]
    /\ m_HandleBuffer c' = DataBuffer.mk (DataBuffer.unread held) 0
    /\ m_Compressor c' = m_Compressor c
    /\ m_ProtocolState c' = m_ProtocolState c
    /\ forall next,
         m_HandleBuffer (receive_into next c')
         = DataBuffer.mk
             (DataBuffer.unread held
              ++ snd (Decrypt (m_Encrypter c') next)) 0.
Proof.
  intros Hrecv Hstatus Hsome held Hshort.
  rewrite (CreatePacket_received c sock received Hrecv Hstatus Hsome).
  cbn zeta.
  set (c0 := receive_into received _).
  assert (Hc0 : m_HandleBuffer c0 = held
                /\ m_Compressor c0 = m_Compressor c
                /\ m_ProtocolState c0 = m_ProtocolState c
                /\ calls c0 = calls c ++ [SocketReceive 4096 received]).
  { unfold c0, receive_into, held. cbn [m_Encrypter log_call set_Socket].
    destruct (Decrypt _ _) as [e plain]; repeat split. }
  destruct Hc0 as (Hb0 & Hz0 & Hs0 & Hl0).
  cbn [assemble]. rewrite Hb0.
  rewrite (CreatePacket_from_short held c0 Hshort).
  replace (set_HandleBuffer held c0) with c0
    by (rewrite <- Hb0; symmetry; apply set_HandleBuffer_same).
  eexists. split; [reflexivity|].
  assert (Hkept : m_HandleBuffer (compact c0)
                  = DataBuffer.mk (DataBuffer.unread held) 0).
  { rewrite compact_unread, Hb0. reflexivity. }
  assert (Hframe : calls (compact c0) = calls c0
                   /\ m_Compressor (compact c0) = m_Compressor c0
                   /\ m_ProtocolState (compact c0) = m_ProtocolState c0).
  { unfold compact.
    destruct (DataBuffer.IsFinished _); [|destruct (negb _)]; repeat split. }
  destruct Hframe as (Hl & Hz & Hs).
  rewrite Hl, Hz, Hs, Hl0, Hz0, Hs0.
  repeat (split; [first [reflexivity | assumption]|]).
  intros next. unfold receive_into.
  destruct (Decrypt _ next) as [e plain]; cbn [m_HandleBuffer set_HandleBuffer
                                                set_Encrypter snd].
  rewrite Hkept. reflexivity.
Qed.

End FramesThroughPolls.

(** ** How the operations compose *)

Section Composition.

Context {world : Collaborators}.

Lemma SendPacket_Encrypter (packet : Outbound.Packet) (c : Connection) :
  m_Encrypter (SendPacket packet c)
  = fst (Encrypt (m_Encrypter c)
           (Compress (m_Compressor c) (Serialize packet))).
Proof.
  unfold SendPacket. destruct (Encrypt _ _) as [e out]; reflexivity.
Qed.

Lemma SendPacket_identity (packet : Outbound.Packet) (c : Connection) :
  m_Server (SendPacket packet c) = m_Server c
  /\ m_Port (SendPacket packet c) = m_Port c
  /\ m_Username (SendPacket packet c) = m_Username c
  /\ m_Password (SendPacket packet c) = m_Password c.
Proof.
  unfold SendPacket. destruct (Encrypt _ _) as [e out]; repeat split.
Qed.

Lemma connect_each_frame (addrs : list IPAddress) (port : Z) :
  forall c : Connection,
    let c' := fst (connect_each addrs port c) in
    m_Encrypter c' = m_Encrypter c
    /\ m_Compressor c' = m_Compressor c
    /\ m_Server c' = m_Server c
    /\ m_Port c' = m_Port c.
Proof.
  induction addrs as [|addr rest IH]; intros c; cbn [connect_each].
  - repeat split.
  - destruct (Socket_Connect (m_Socket c) addr port) as [sock [|]].
    + repeat split.
    + apply (IH (log_call (SocketConnect addr port false)
                   (set_Socket sock c))).
Qed.

(** [Connect] stores the server and the port it is given, whether or not
    it connects, and leaves the codecs alone. *)
Lemma Connect_frame (host : string) (port : Z) (c : Connection) :
  let c' := fst (Connect host port c) in
  m_Server c' = host
  /\ m_Port c' = port
  /\ m_Encrypter c' = m_Encrypter c
  /\ m_Compressor c' = m_Compressor c.
Proof.
  unfold Connect. cbn [m_Server set_Server m_Port m_Socket].
  destruct host as [|ch rest]; [repeat split|].
  destruct (isdigit ch).
  - destruct (Socket_Connect _ _ _) as [sock [|]]; repeat split.
  - destruct (Dns_Resolve _) as [|addr addrs]; [repeat split|].
    pose proof (connect_each_frame (addr :: addrs) port
                  (log_call (DnsResolve (String ch rest))
                     (set_Server (String ch rest) port c))) as H.
    change (m_Port (log_call (DnsResolve (String ch rest))
                      (set_Server (String ch rest) port c))) with port.
    destruct (connect_each (addr :: addrs) port _) as [c2 [|]];
      cbn in H |- *; destruct H as (He & Hz & Hs & Hp); auto.
Qed.

(** X12.  [Login] after [Connect]: two packets are sent, a Handshake for
    protocol 47 that names the host and port [Connect] was given and asks
    for the Login state, then a LoginStart with the user name, the second
    through the encrypter as the first left it; the credentials are stored
    and the protocol state is Login.  [Login] does not look at what
    [Connect] returned. *)
Theorem Login_after_Connect (host : string) (port : Z)
    (username password : string) (c : Connection) :
  let c1 := fst (Connect host port c) in
  let c2 := Login username password c1 in
  let handshake :=
    Encrypt (m_Encrypter c)
      (Compress (m_Compressor c)
         (Serialize (Outbound.HandshakePacket 47 host port Protocol.Login)))
  in
  let loginStart :=
    Encrypt (fst handshake)
      (Compress (m_Compressor c)
         (Serialize (Outbound.LoginStartPacket username))) in
  calls c2
  = calls c1 ++ [SocketSend (snd handshake); SocketSend (snd loginStart)]
  /\ m_ProtocolState c2 = Protocol.Login
  /\ m_Username c2 = username
  /\ m_Password c2 = password.
Proof.
  cbn zeta.
  destruct (Connect_frame host port c) as (Hs & Hp & He & Hz).
  cbn zeta in Hs, Hp, He, Hz.
  unfold Login. cbn [calls m_ProtocolState m_Username m_Password
                     set_ProtocolState set_Credentials].
  rewrite !SendPacket_calls, SendPacket_Encrypter.
  rewrite (proj1 (proj2 (SendPacket_frame _ _))).
  rewrite Hs, Hp, He, Hz, <- app_assoc.
  repeat split.
Qed.

(** X13.  The credentials an EncryptionRequest is answered with are those
    of the last [Login]: the identity service is asked to validate the user
    name and password [Login] was given. *)
Theorem EncryptionRequest_after_Login (username password : string)
    (serverId publicKey verifyToken : string) (c : Connection) :
  let c1 := Login username password c in
  let created := AES_GenerateResponsePacket (AES_new publicKey verifyToken) in
  exists success error wire,
    calls (HandlePacket_EncryptionRequest serverId publicKey verifyToken c1)
    = calls c1
      ++ [YggAuthenticate username password;
          YggJoinServer (GetUTF16 serverId)
            (AES_GetSharedSecret (fst created)) publicKey;
          Notify (OnAuthentication success error);
          SocketSend wire].
Proof.
  cbn zeta. unfold HandlePacket_EncryptionRequest.
  destruct (AES_GenerateResponsePacket _) as [aes resp]; cbn [fst snd].
  cbn [calls set_Encrypter].
  rewrite SendPacket_calls, AuthenticateClient_calls.
  eexists _, _, _. rewrite <- app_assoc. reflexivity.
Qed.

(** X14.  Once an EncryptionRequest is handled, the next packet sent goes
    through the new cipher, in the state [GenerateResponsePacket] left it
    (the response itself went through the encrypter in place before), and
    the bytes of the next poll are decrypted by it. *)
Theorem EncryptionRequest_installs_cipher
    (serverId publicKey verifyToken : string) (packet : Outbound.Packet)
    (received : bytes) (c : Connection) :
  let aes := fst (AES_GenerateResponsePacket (AES_new publicKey verifyToken)) in
  let c1 := HandlePacket_EncryptionRequest serverId publicKey verifyToken c in
  calls (SendPacket packet c1)
  = calls c1
    ++ [SocketSend
          (snd (AES_Encrypt aes
                  (Compress (m_Compressor c) (Serialize packet))))]
  /\ m_HandleBuffer (receive_into received c1)
     = DataBuffer.append (m_HandleBuffer c)
         (snd (AES_Decrypt aes received)).
Proof.
  cbn zeta. rewrite SendPacket_calls.
  unfold HandlePacket_EncryptionRequest, receive_into.
  destruct (AES_GenerateResponsePacket _) as [aes resp]; cbn [fst snd].
  cbn [m_Encrypter m_Compressor m_HandleBuffer set_Encrypter Encrypt Decrypt].
  rewrite (proj1 (proj2 (SendPacket_frame _ _))).
  rewrite (proj1 (proj2 (AuthenticateClient_frame _ _ _ _))).
  rewrite (proj1 (SendPacket_frame _ _)), AuthenticateClient_HandleBuffer.
  destruct (AES_Encrypt aes _) as [a1 out].
  destruct (AES_Decrypt aes received) as [a2 plain].
  split; reflexivity.
Qed.

(** X15.  SetCompression installs a compressor for whatever size it
    carries, zero and negative sizes included: the connection is
    compressing afterwards, the last size received is the one in force, and
    the next packet sent is compressed with it. *)
Theorem SetCompression_last_wins (first last : Z) (packet : Outbound.Packet)
    (c : Connection) :
  let c2 :=
    HandlePacket_SetCompression last (HandlePacket_SetCompression first c) in
  compressing c2 = true
  /\ m_Compressor c2 = CompressionZ last
  /\ calls (SendPacket packet c2)
     = calls c
       ++ [SocketSend
             (snd (Encrypt (m_Encrypter c)
                     (Z_Compress last (Serialize packet))))].
Proof.
  cbn zeta. split; [reflexivity|]. split; [reflexivity|].
  rewrite SendPacket_calls. reflexivity.
Qed.

(** X16.  After a LoginSuccess, a Disconnect packet is no login failure:
    the listeners get the socket status only, and the protocol state is
    still Play.  After a new [Login] it is one again, Play having been
    reached or not. *)
Theorem Disconnect_after_LoginSuccess (username password : string)
    (c : Connection) :
  let played := HandlePacket_LoginSuccess c in
  let status s := Socket_GetStatus (Socket_Disconnect s) in
  calls (HandlePacket_Disconnect played)
  = calls c
    ++ [Notify (OnLogin true); SocketDisconnect;
        Notify (OnSocketStateChange (status (m_Socket c)))]
  /\ m_ProtocolState (HandlePacket_Disconnect played) = Protocol.Play
  /\ calls (HandlePacket_Disconnect (Login username password played))
     = calls (Login username password played)
       ++ [SocketDisconnect;
           Notify (OnSocketStateChange
                     (status (m_Socket (Login username password played))));
           Notify (OnLogin false)].
Proof.
  cbn zeta. split; [|split].
  - unfold HandlePacket_Disconnect, HandlePacket_LoginSuccess,
      NotifyListeners; cbn.
    rewrite <- !app_assoc. reflexivity.
  - reflexivity.
  - unfold HandlePacket_Disconnect, NotifyListeners.
    cbn [m_ProtocolState log_call set_Socket m_Socket calls].
    assert (Hstate : m_ProtocolState
                       (Login username password (HandlePacket_LoginSuccess c))
                     = Protocol.Login) by reflexivity.
    rewrite Hstate. cbn. rewrite <- !app_assoc. reflexivity.
Qed.

(** X17.  A PlayerPositionAndLook packet is answered by two packets, in
    this order: the position and look received, marked on the ground, and a
    ClientStatus asking to respawn; the second goes through the encrypter
    as the first left it. *)
Theorem HandlePacket_PlayerPositionAndLook_answers (x y z yaw pitch : Z)
    (c : Connection) :
  let echo :=
    Encrypt (m_Encrypter c)
      (Compress (m_Compressor c)
         (Serialize
            (Outbound.PlayerPositionAndLookPacket x y z yaw pitch true))) in
  let respawn :=
    Encrypt (fst echo)
      (Compress (m_Compressor c)
         (Serialize (Outbound.ClientStatusPacket Outbound.PerformRespawn))) in
  calls (HandlePacket_PlayerPositionAndLook x y z yaw pitch c)
  = calls c ++ [SocketSend (snd echo); SocketSend (snd respawn)]
  /\ m_Encrypter (HandlePacket_PlayerPositionAndLook x y z yaw pitch c)
     = fst respawn.
Proof.
  cbn zeta. unfold HandlePacket_PlayerPositionAndLook.
  rewrite !SendPacket_calls, !SendPacket_Encrypter.
  rewrite (proj1 (proj2 (SendPacket_frame _ _))).
  rewrite <- app_assoc. split; reflexivity.
Qed.

(** X18.  [AuthenticateClient] reports a success exactly when both the
    validation and the join-server call returned [true], and the error it
    reports is then empty; the join-server call is made on the identity
    service as the validation left it. *)
Theorem AuthenticateClient_verdict (sid secret key : string)
    (c : Connection) :
  let validated :=
    Ygg_Authenticate (m_Yggdrasil c) (m_Username c) (m_Password c) in
  let joined := Ygg_JoinServer (fst validated) sid secret key in
  exists success error,
    calls (AuthenticateClient sid secret key c)
    = calls c
      ++ [YggAuthenticate (m_Username c) (m_Password c);
          YggJoinServer sid secret key;
          Notify (OnAuthentication success error)]
    /\ m_Yggdrasil (AuthenticateClient sid secret key c) = fst joined
    /\ (success = true
        <-> snd validated = YggReturn true /\ snd joined = YggReturn true)
    /\ (success = true -> error = EmptyString).
Proof.
  cbn zeta. rewrite AuthenticateClient_calls. cbn zeta.
  eexists _, _. split; [reflexivity|].
  unfold AuthenticateClient.
  destruct (Ygg_Authenticate _ _ _) as [y1 r1]; cbn [fst snd].
  cbn [m_Yggdrasil log_call set_Yggdrasil].
  destruct (Ygg_JoinServer y1 sid secret key) as [y2 r2]; cbn [fst snd].
  split; [reflexivity|].
  destruct r1 as [[|]|w1], r2 as [[|]|w2]; cbn;
    (split; [split; [intros H; try discriminate H; split; reflexivity
                    | intros [H1 H2]; try discriminate H1;
                      try discriminate H2; reflexivity]
            | intros H; try discriminate H; reflexivity]).
Qed.

End Composition.

Section TwoFrames.

Context {world : Collaborators}.

(** X19.  Two whole frames received in one chunk on an empty pending
    buffer, both decoded to packets: their handlers run in the order of the
    frames, and the second frame is inflated and decoded with the compressor
    and the protocol state that the handler of the first one left (so a
    SetCompression or a LoginSuccess applies to the frame right after it);
    the pending buffer ends empty. *)
Theorem CreatePacket_two_frames (c : Connection) (sock : TCPSocket)
    (received : bytes) (len1 len2 : Z) (n1 n2 : nat)
    (first second : Inbound.Packet) :
  let plain := snd (Decrypt (m_Encrypter c) received) in
  let rest := skipn (n1 + Z.to_nat len1) plain in
  let c0 :=
    receive_into received
      (log_call (SocketReceive 4096 received) (set_Socket sock c)) in
  m_HandleBuffer c = DataBuffer.empty ->
  Socket_Receive (m_Socket c) 4096 = (sock, received) ->
  Socket_GetStatus sock = Socket.Connected ->
  (0 < length received)%nat ->
  VarInt.decode plain 0 0 = Some (len1, n1) ->
  0 <= len1 < 2 ^ 31 ->
  PacketFactory_CreatePacket (m_ProtocolState c)
    (DataBuffer.mk
       (inflate (m_Compressor c) (firstn (Z.to_nat len1) (skipn n1 plain)))
       0) len1
  = Created first ->
  VarInt.decode rest 0 0 = Some (len2, n2) ->
  0 <= len2 < 2 ^ 31 ->
  length plain = (n1 + Z.to_nat len1 + (n2 + Z.to_nat len2))%nat ->
  PacketFactory_CreatePacket (m_ProtocolState (dispatch first c0))
    (DataBuffer.mk
       (inflate (m_Compressor (dispatch first c0)) (skipn n2 rest)) 0) len2
  = Created second ->
  CreatePacket c
  = Some (set_HandleBuffer DataBuffer.empty
            (dispatch second (dispatch first c0))).
Proof.
  intros plain rest c0 Hempty Hrecv Hstatus Hsome Hd1 Hlen1 Hf1 Hd2 Hlen2
    Hsize Hf2.
  rewrite (CreatePacket_received c sock received Hrecv Hstatus Hsome).
  cbn zeta. fold c0.
  destruct (receive_into_empty received
              (log_call (SocketReceive 4096 received) (set_Socket sock c))
              Hempty) as (Hb0 & Hz0 & Hs0 & _).
  fold c0 in Hb0, Hz0, Hs0.
  cbn [m_Encrypter m_Compressor m_ProtocolState log_call set_Socket]
    in Hb0, Hz0, Hs0.
  fold plain in Hb0.
  pose proof (decode_consumed _ _ _ _ _ Hd2) as Hn2.
  assert (Hrest : length rest = (n2 + Z.to_nat len2)%nat)
    by (unfold rest; rewrite length_skipn; lia).
  (* the first frame *)
  assert (Hfuel : DataBuffer.GetRemaining (m_HandleBuffer c0)
                  = S (n1 + Z.to_nat len1 + (n2 + Z.to_nat len2) - 1)).
  { rewrite Hb0. unfold DataBuffer.GetRemaining, DataBuffer.GetSize. cbn.
    lia. }
  rewrite Hfuel.
  rewrite (assemble_frame _ c0 len1 n1);
    [ | rewrite Hb0; exact Hd1 | exact Hlen1
      | rewrite Hb0; unfold DataBuffer.GetRemaining, DataBuffer.GetSize;
        cbn; lia ].
  cbn zeta. rewrite Hz0, Hs0.
  replace (DataBuffer.unread (m_HandleBuffer c0)) with plain
    by (rewrite Hb0; reflexivity).
  rewrite Hf1, dispatch_set_HandleBuffer.
  set (d1 := set_HandleBuffer _ (dispatch first c0)).
  assert (Hd1rest : DataBuffer.unread (m_HandleBuffer d1) = rest).
  { unfold d1. cbn [m_HandleBuffer set_HandleBuffer].
    rewrite <- Nat.add_assoc, unread_advance, Hb0. reflexivity. }
  rewrite more_to_read_unread, Hd1rest.
  destruct rest as [|r0 rs] eqn:Erest; [cbn in Hrest; lia|].
  rewrite <- Erest in *.
  (* the second frame *)
  rewrite (assemble_frame _ d1 len2 n2);
    [ | rewrite Hd1rest; exact Hd2 | exact Hlen2
      | rewrite <- unread_length, Hd1rest; lia ].
  cbn zeta. rewrite Hd1rest.
  rewrite (firstn_all2 (skipn n2 rest)) by (rewrite length_skipn; lia).
  change (m_ProtocolState d1) with (m_ProtocolState (dispatch first c0)).
  change (m_Compressor d1) with (m_Compressor (dispatch first c0)).
  rewrite Hf2, dispatch_set_HandleBuffer.
  set (b2 := DataBuffer.SetReadOffset (m_HandleBuffer d1) _).
  assert (Hdone : DataBuffer.unread b2 = []).
  { unfold b2. rewrite <- Nat.add_assoc, unread_advance, Hd1rest.
    apply skipn_all2. lia. }
  replace (set_HandleBuffer b2 (dispatch second d1))
    with (set_HandleBuffer b2 (dispatch second (dispatch first c0)))
    by (unfold d1; rewrite dispatch_set_HandleBuffer; reflexivity).
  rewrite more_to_read_unread.
  cbn [m_HandleBuffer set_HandleBuffer]. rewrite Hdone.
  unfold compact. cbn [m_HandleBuffer set_HandleBuffer].
  rewrite IsFinished_unread, Hdone. reflexivity.
Qed.

End TwoFrames.

(** ** Compaction: what a poll consumes and what it keeps *)


Section Compaction.

Context {world : Collaborators}.






End Compaction.

Section CompactionOfAPoll.

Context {world : Collaborators}.


End CompactionOfAPoll.

(** ** The properties at work in the demo world *)

#[local] Existing Instance Demo.world.

(** A KeepAlive with id 42 is answered by a KeepAlive with id 42. *)
Example poll_KeepAlive :
  option_map calls
    (CreatePacket (Demo.polling Protocol.Play DataBuffer.empty
                     [[x02; x00; x2a]]))
  = Some [SocketReceive 4096 [x02; x00; x2a];
          Dispatch (Inbound.KeepAlivePacket 42);
          SocketSend [x00; x2a]].
Proof. reflexivity. Qed.

(** A frame cut in two by the transport is dispatched once, when its last
    byte has arrived. *)
Example poll_split_frame :
  Demo.poll_twice (Demo.polling Protocol.Play DataBuffer.empty
                [[x02; x00]; [x2a]])
  = Some ([SocketReceive 4096 [x02; x00];
           SocketReceive 4096 [x2a];
           Dispatch (Inbound.KeepAlivePacket 42);
           SocketSend [x00; x2a]],
          DataBuffer.empty).
Proof. reflexivity. Qed.

(** The frames of one chunk are dispatched in order; SetCompression takes
    effect for the frame that follows it. *)
Example poll_SetCompression :
  option_map (fun c => (calls c, m_Compressor c, m_ProtocolState c))
    (CreatePacket (Demo.polling Protocol.Login DataBuffer.empty
                     [[x02; x03; x40; x02; x00; x02]]))
  = Some ([SocketReceive 4096 [x02; x03; x40; x02; x00; x02];
           Dispatch (Inbound.SetCompressionPacket 64);
           Dispatch Inbound.LoginSuccessPacket;
           Notify (OnLogin true)],
          CompressionZ 64, Protocol.Play).
Proof. reflexivity. Qed.

(** An EncryptionRequest for a user the identity service rejects: the
    response is sent in the clear and the AES strategy is installed. *)
Example poll_EncryptionRequest_rejected :
  option_map (fun c => (calls c, m_Encrypter c))
    (CreatePacket
       (set_HandleBuffer DataBuffer.empty
          (set_Socket (Demo.mkSocket Socket.Connected [[x01; x01]] [])
             Demo.rejected)))
  = Some ([SocketReceive 4096 [x01; x01];
           Dispatch (Inbound.EncryptionRequestPacket "srv" "pubkey" "verify");
           YggAuthenticate "Steve" "hunter2";
           YggJoinServer "srv" "0123456789abcdef" "pubkey";
           Notify (OnAuthentication false
                     "Failed to join server through Yggdrasil.");
           SocketSend [x01]],
          EncryptionStrategyAES "0123456789abcdef"%string).
Proof. reflexivity. Qed.

Example Connect_resolved :
  Connect "mc.example.org" 25565 Demo.fresh
  = (mkConnection EncryptionStrategyNone CompressionNone
       (Demo.mkSocket Socket.Connected [] []) None Protocol.Handshake
       DataBuffer.empty "mc.example.org" 25565 "" ""
       [DnsResolve "mc.example.org";
        SocketConnect "10.0.0.1"%string 25565 false;
        SocketConnect "10.0.0.2"%string 25565 true;
        Notify (OnSocketStateChange Socket.Connected)],
     Some true).
Proof. reflexivity. Qed.

Example Connect_empty_host :
  snd (Connect "" 25565 Demo.fresh) = None.
Proof. reflexivity. Qed.

(** A user the identity service rejects: the validation returns [false],
    and join-server is called all the same. *)
Lemma AuthenticateClient_joins_after_rejection :
  snd (Ygg_Authenticate (m_Yggdrasil Demo.rejected)
         (m_Username Demo.rejected) (m_Password Demo.rejected))
  = YggReturn false
  /\ In (YggJoinServer "srv" "secret" "pubkey")
       (calls (AuthenticateClient "srv" "secret" "pubkey" Demo.rejected))
  /\ ~ In (Notify (OnAuthentication false "Failed to authenticate"))
         (calls (AuthenticateClient "srv" "secret" "pubkey" Demo.rejected)).
Proof.
  split; [reflexivity|]. split.
  - cbn. right. left. reflexivity.
  - cbn. intros [H|[H|[H|[]]]]; discriminate H.
Qed.

Lemma AuthenticateClient_rejected_witness :
  calls (AuthenticateClient "srv" "secret" "pubkey" Demo.rejected)
  = [YggAuthenticate "Steve" "hunter2";
     YggJoinServer "srv" "secret" "pubkey";
     Notify (OnAuthentication false
               "Failed to join server through Yggdrasil.")].
Proof.
  apply (AuthenticateClient_rejected "srv" "secret" "pubkey" Demo.rejected
           None).
  reflexivity.
Defined.

Lemma AuthenticateClient_both_fail_witness :
  calls (AuthenticateClient "" "secret" "pubkey" Demo.rejected)
  = [YggAuthenticate "Steve" "hunter2";
     YggJoinServer "" "secret" "pubkey";
     Notify (OnAuthentication false "Invalid server.")].
Proof.
  apply (AuthenticateClient_both_fail "" "secret" "pubkey" Demo.rejected
           None None (YggReturn false) (YggThrow "Invalid server."));
    reflexivity.
Defined.

(** C8.  The code at a host name that starts with a digit: "9gag.com" is
    no numeric address, and yet [Connect] does not resolve it; its one call
    is a connection attempt on an address built from the name itself. *)
Lemma Connect_digit_host_not_resolved :
  numeric_address "9gag.com" = false
  /\ calls (fst (Connect "9gag.com" 25565 Demo.fresh))
     = [SocketConnect "9gag.com"%string 25565 false]
  /\ ~ In (DnsResolve "9gag.com")
         (calls (fst (Connect "9gag.com" 25565 Demo.fresh))).
Proof.
  split; [reflexivity|]. split; [reflexivity|].
  cbn. intros [H|[]]. discriminate H.
Qed.

(** A pending buffer that holds one byte of an unfinished VarInt, and one
    that holds a length of 5 followed by two bytes. *)
Lemma CreatePacket_from_insufficient_witness :
  let partial :=
    Demo.polling Protocol.Play (DataBuffer.mk [x02; x00; x2a; x80] 3) [] in
  let short :=
    Demo.polling Protocol.Play (DataBuffer.mk [x05; x00; x2a] 0) [] in
  (CreatePacket_from (m_HandleBuffer partial) partial
   = (m_HandleBuffer partial, Null)
   /\ (forall fuel, assemble (S fuel) partial = Some partial)
   /\ m_HandleBuffer (compact partial) = DataBuffer.mk [x80] 0)
  /\ (CreatePacket_from (m_HandleBuffer short) short
      = (m_HandleBuffer short, Null)
      /\ (forall fuel, assemble (S fuel) short = Some short)
      /\ m_HandleBuffer (compact short) = DataBuffer.mk [x05; x00; x2a] 0).
Proof.
  split.
  - apply (CreatePacket_from_insufficient
             (Demo.polling Protocol.Play
                (DataBuffer.mk [x02; x00; x2a; x80] 3) [])).
    left. repeat constructor.
  - apply (CreatePacket_from_insufficient
             (Demo.polling Protocol.Play
                (DataBuffer.mk [x05; x00; x2a] 0) [])).
    right. exists 5, 1%nat. split; [reflexivity | cbn; lia].
Defined.



(** A poll with nothing to receive while a whole KeepAlive frame is
    pending. *)
Lemma CreatePacket_no_bytes_witness :
  let c := Demo.polling Protocol.Play (DataBuffer.mk [x02; x00; x2a] 0) [] in
  exists c',
    CreatePacket c = Some c'
    /\ m_HandleBuffer c' = m_HandleBuffer c
    /\ m_Encrypter c' = m_Encrypter c
    /\ m_Compressor c' = m_Compressor c
    /\ m_ProtocolState c' = m_ProtocolState c
    /\ calls c' = calls c ++ [SocketReceive 4096 []].
Proof.
  apply (CreatePacket_no_bytes
           (Demo.polling Protocol.Play (DataBuffer.mk [x02; x00; x2a] 0) [])
           (Demo.mkSocket Socket.Connected [] []));
    reflexivity.
Defined.


(** A KeepAlive frame followed by the first byte of another frame. *)
Lemma CreatePacket_from_whole_frame_witness :
  let buffer := DataBuffer.mk [x02; x00; x2a; x05] 0 in
  let c := Demo.polling Protocol.Play buffer [] in
  CreatePacket_from buffer c
  = (DataBuffer.mk [x02; x00; x2a; x05] 3,
     Created (Inbound.KeepAlivePacket 42))
  /\ length [x00; x2a] = 2%nat
  /\ DataBuffer.unread (DataBuffer.mk [x02; x00; x2a; x05] 3) = [x05].
Proof.
  apply (CreatePacket_from_whole_frame
           (DataBuffer.mk [x02; x00; x2a; x05] 0)
           (Demo.polling Protocol.Play
              (DataBuffer.mk [x02; x00; x2a; x05] 0) []) 2 1).
  - reflexivity.
  - lia.
  - cbn. lia.
Defined.

(** A pending buffer whose first frame is consumed already. *)
Lemma assemble_after_compaction_witness :
  let c :=
    Demo.polling Protocol.Play
      (DataBuffer.mk [x02; x00; x2a; x02; x00; x2b; x02] 3) [] in
  let c' := Demo.returned (assemble 5 c) c in
  exists b',
    assemble 5
      (set_HandleBuffer (DataBuffer.mk [x02; x00; x2b; x02] 0) c)
    = Some (set_HandleBuffer b' c')
    /\ DataBuffer.unread b' = [x02].
Proof.
  apply (assemble_after_compaction 5
           (Demo.polling Protocol.Play
              (DataBuffer.mk [x02; x00; x2a; x02; x00; x2b; x02] 3) [])).
  vm_compute. reflexivity.
Defined.

(** A poll that receives a LoginSuccess in the Login state. *)
Lemma CreatePacket_ProtocolState_witness :
  let c := Demo.polling Protocol.Login DataBuffer.empty [[x01; x02]] in
  m_ProtocolState (Demo.returned (CreatePacket c) c) = Protocol.Login
  \/ m_ProtocolState (Demo.returned (CreatePacket c) c) = Protocol.Play.
Proof.
  apply (CreatePacket_ProtocolState
           (Demo.polling Protocol.Login DataBuffer.empty [[x01; x02]])
           (Demo.returned
              (CreatePacket
                 (Demo.polling Protocol.Login DataBuffer.empty [[x01; x02]]))
              (Demo.polling Protocol.Login DataBuffer.empty [[x01; x02]]))).
  vm_compute. reflexivity.
Defined.

(** A poll of an encrypting and compressing connection that receives a
    Disconnect (the bytes fd fe ff fe decrypt to 02 01 00 01: a frame of
    length 2 holding the marker of the compressor and the id of Disconnect,
    then the first byte of a next frame). *)
Lemma CreatePacket_keeps_codecs_witness :
  let c := Demo.secured Protocol.Login [[xfd; xfe; xff; xfe]] in
  (encrypting c = true
   -> encrypting (Demo.returned (CreatePacket c) c) = true)
  /\ (compressing c = true
      -> compressing (Demo.returned (CreatePacket c) c) = true).
Proof.
  apply (CreatePacket_keeps_codecs
           (Demo.secured Protocol.Login [[xfd; xfe; xff; xfe]])
           (Demo.returned
              (CreatePacket
                 (Demo.secured Protocol.Login [[xfd; xfe; xff; xfe]]))
              (Demo.secured Protocol.Login [[xfd; xfe; xff; xfe]]))).
  vm_compute. reflexivity.
Defined.

Lemma CreatePacket_receives_once_witness :
  let c := Demo.polling Protocol.Play DataBuffer.empty [[x02; x00; x2a]] in
  exists made,
    calls (Demo.returned (CreatePacket c) c)
    = calls c ++ SocketReceive 4096 [x02; x00; x2a] :: made
    /\ forallb made_by_handlers made = true.
Proof.
  apply (CreatePacket_receives_once
           (Demo.polling Protocol.Play DataBuffer.empty [[x02; x00; x2a]])
           (Demo.returned
              (CreatePacket
                 (Demo.polling Protocol.Play DataBuffer.empty
                    [[x02; x00; x2a]]))
              (Demo.polling Protocol.Play DataBuffer.empty
                 [[x02; x00; x2a]]))).
  vm_compute. reflexivity.
Defined.

(** A socket that delivers a whole frame and reports Disconnected. *)
Lemma CreatePacket_not_connected_witness :
  let c := Demo.closing [[x02; x00; x2a]] in
  exists c',
    CreatePacket c = Some c'
    /\ calls c'
       = calls c
         ++ [SocketReceive 4096 [x02; x00; x2a];
             Notify (OnSocketStateChange Socket.Disconnected)]
    /\ m_HandleBuffer c' = m_HandleBuffer c
    /\ m_Encrypter c' = m_Encrypter c
    /\ m_Compressor c' = m_Compressor c
    /\ m_ProtocolState c' = m_ProtocolState c.
Proof.
  apply (CreatePacket_not_connected
           (Demo.closing [[x02; x00; x2a]])
           (Demo.mkSocket Socket.Disconnected [] [])
           [x02; x00; x2a]);
    reflexivity.
Defined.

Lemma CreatePacket_cursor_zero_witness :
  let c :=
    Demo.polling Protocol.Play DataBuffer.empty [[x02; x00; x2a; x02]] in
  DataBuffer.m_ReadOffset
    (m_HandleBuffer (Demo.returned (CreatePacket c) c)) = 0%nat.
Proof.
  apply (CreatePacket_cursor_zero
           (Demo.polling Protocol.Play DataBuffer.empty
              [[x02; x00; x2a; x02]])
           (Demo.returned
              (CreatePacket
                 (Demo.polling Protocol.Play DataBuffer.empty
                    [[x02; x00; x2a; x02]]))
              (Demo.polling Protocol.Play DataBuffer.empty
                 [[x02; x00; x2a; x02]]))).
  - vm_compute. reflexivity.
  - reflexivity.
Defined.

(** A KeepAlive frame, alone in its chunk. *)
Lemma CreatePacket_single_frame_witness :
  let c := Demo.polling Protocol.Play DataBuffer.empty [[x02; x00; x2a]] in
  CreatePacket c
  = Some (set_HandleBuffer DataBuffer.empty
            (dispatch (Inbound.KeepAlivePacket 42)
               (receive_into [x02; x00; x2a]
                  (log_call (SocketReceive 4096 [x02; x00; x2a])
                     (set_Socket (Demo.mkSocket Socket.Connected [] [])
                        c))))).
Proof.
  apply (CreatePacket_single_frame
           (Demo.polling Protocol.Play DataBuffer.empty [[x02; x00; x2a]])
           (Demo.mkSocket Socket.Connected [] [])
           [x02; x00; x2a] 2 1 (Inbound.KeepAlivePacket 42)).
  - reflexivity.
  - reflexivity.
  - reflexivity.
  - cbn. lia.
  - reflexivity.
  - lia.
  - reflexivity.
  - reflexivity.
Defined.

(** A frame the factory returns [nullptr] on, followed by a KeepAlive
    frame: the KeepAlive stays pending. *)
Lemma CreatePacket_null_frame_witness :
  let c :=
    Demo.polling_null Protocol.Play DataBuffer.empty
      [[x01; x7f; x02; x00; x2a]] in
  exists c',
    CreatePacket c = Some c'
    /\ calls c' = calls c ++ [SocketReceive 4096 [x01; x7f; x02; x00; x2a]]
    /\ m_HandleBuffer c' = DataBuffer.mk [x02; x00; x2a] 0.
Proof.
  apply (@CreatePacket_null_frame Demo.world_null
           (Demo.polling_null Protocol.Play DataBuffer.empty
              [[x01; x7f; x02; x00; x2a]])
           (Demo.mkSocket Socket.Connected [] [])
           [x01; x7f; x02; x00; x2a] 1 1).
  - reflexivity.
  - reflexivity.
  - reflexivity.
  - cbn. lia.
  - reflexivity.
  - lia.
  - cbn. lia.
  - reflexivity.
Defined.

(** A frame of a packet the factory does not know (id 0x7f), followed by a
    KeepAlive frame. *)
Lemma assemble_skips_unfinished_witness :
  let c :=
    Demo.polling Protocol.Play
      (DataBuffer.mk [x01; x7f; x02; x00; x2a] 0) [] in
  let c' := Demo.returned (assemble 5 c) c in
  exists b',
    assemble 4 (set_HandleBuffer (DataBuffer.mk [x02; x00; x2a] 0) c)
    = Some (set_HandleBuffer b' c')
    /\ DataBuffer.unread b' = [].
Proof.
  apply (assemble_skips_unfinished 3
           (Demo.polling Protocol.Play
              (DataBuffer.mk [x01; x7f; x02; x00; x2a] 0) [])
           (Demo.returned
              (assemble 5
                 (Demo.polling Protocol.Play
                    (DataBuffer.mk [x01; x7f; x02; x00; x2a] 0) []))
              (Demo.polling Protocol.Play
                 (DataBuffer.mk [x01; x7f; x02; x00; x2a] 0) []))
           1 1).
  - reflexivity.
  - lia.
  - cbn. lia.
  - reflexivity.
  - vm_compute. reflexivity.
Defined.

(** The first two bytes of a KeepAlive frame. *)
Lemma CreatePacket_keeps_partial_frame_witness :
  let c := Demo.polling Protocol.Play DataBuffer.empty [[x02; x00]] in
  exists c',
    CreatePacket c = Some c'
    /\ calls c' = calls c ++ [SocketReceive 4096 [x02; x00]]
    /\ m_HandleBuffer c' = DataBuffer.mk [x02; x00] 0
    /\ m_Compressor c' = m_Compressor c
    /\ m_ProtocolState c' = m_ProtocolState c
    /\ forall next,
         m_HandleBuffer (receive_into next c')
         = DataBuffer.mk
             ([x02; x00] ++ snd (Decrypt (m_Encrypter c') next)) 0.
Proof.
  apply (CreatePacket_keeps_partial_frame
           (Demo.polling Protocol.Play DataBuffer.empty [[x02; x00]])
           (Demo.mkSocket Socket.Connected [] [])
           [x02; x00]).
  - reflexivity.
  - reflexivity.
  - cbn. lia.
  - right. exists 2, 1%nat. split; [reflexivity | cbn; lia].
Defined.

(** A SetCompression frame followed by a LoginSuccess frame, the second
    one in the format of the compressor the first one installs. *)
Lemma CreatePacket_two_frames_witness :
  let c :=
    Demo.polling Protocol.Login DataBuffer.empty
      [[x02; x03; x40; x02; x00; x02]] in
  CreatePacket c
  = Some (set_HandleBuffer DataBuffer.empty
            (dispatch Inbound.LoginSuccessPacket
               (dispatch (Inbound.SetCompressionPacket 64)
                  (receive_into [x02; x03; x40; x02; x00; x02]
                     (log_call
                        (SocketReceive 4096 [x02; x03; x40; x02; x00; x02])
                        (set_Socket (Demo.mkSocket Socket.Connected [] [])
                           c)))))).
Proof.
  apply (CreatePacket_two_frames
           (Demo.polling Protocol.Login DataBuffer.empty
              [[x02; x03; x40; x02; x00; x02]])
           (Demo.mkSocket Socket.Connected [] [])
           [x02; x03; x40; x02; x00; x02] 2 2 1 1
           (Inbound.SetCompressionPacket 64) Inbound.LoginSuccessPacket).
  - reflexivity.
  - reflexivity.
  - reflexivity.
  - cbn. lia.
  - reflexivity.
  - lia.
  - reflexivity.
  - reflexivity.
  - lia.
  - reflexivity.
  - reflexivity.
Defined.
